(** * Shift accounting of autosum.py: classifier, ledger, totals, archive

    A shallow embedding of the accounting core of [src/autosum.py]:
    [get_shift_and_business_date], [get_today_str],
    [recalc_totals_from_history], [update_total], [get_totals],
    [move_to_old], [get_old_totals] and the "New Data" branch of
    [handle_message].

    Modelling decisions.
    - The three SQLite tables are lists of rows, in insertion order;
      [SELECT ... WHERE] is [filter], [fetchone] is [head], [UPDATE ... WHERE]
      is a conditional [fmap], [INSERT] appends.
    - TEXT columns are strings, INTEGER columns are [Z].
    - The REAL columns [total] and [amount] are modelled twice.  In the
      first model they hold exact amounts, counted in a fixed smallest unit,
      as [Z]; it carries the statements about keys, counts, zeros and the
      rows a function reads or writes.  The module [Real] has the same
      tables and functions with these columns as SQLite holds them, NULL or
      a binary64 value, with IEEE addition, a NaN stored as NULL and
      [float(None)] raising; it carries the statements that depend on the
      value of a total.
    - [datetime.now()] is an explicit argument: the clock reading, with its
      microsecond field.
    - A Python exception is [None]: the [OverflowError] of
      [today - timedelta(days=1)] at [date.min] and, in [Real], the
      [TypeError] of [float(total)] on a NULL total. *)

From stdpp Require Import base option list strings gmap.
From Stdlib Require Import ZArith Lia Ascii PrimFloat.

Local Open Scope string_scope.
Local Open Scope list_scope.
Local Open Scope Z_scope.

(** ** datetime.time, datetime.date, datetime.datetime *)

Record time := mk_time {
  hour : Z;
  minute : Z;
  second : Z;
  microsecond : Z
}.

Record date := mk_date {
  year : Z;
  month : Z;
  day : Z
}.

Record datetime := mk_datetime {
  dt_date : date;   (* now_dt.date() *)
  dt_time : time    (* now_dt.time() *)
}.

Definition valid_time (t : time) : Prop :=
  0 <= hour t < 24 /\ 0 <= minute t < 60 /\ 0 <= second t < 60 /\
  0 <= microsecond t < 1000000.

(** Python orders naive [time] values as the tuples
    [(hour, minute, second, microsecond)]. *)
Definition time_lt (a b : time) : Prop :=
  hour a < hour b \/
  (hour a = hour b /\
   (minute a < minute b \/
    (minute a = minute b /\
     (second a < second b \/
      (second a = second b /\ microsecond a < microsecond b))))).

Definition time_le (a b : time) : Prop :=
  hour a < hour b \/
  (hour a = hour b /\
   (minute a < minute b \/
    (minute a = minute b /\
     (second a < second b \/
      (second a = second b /\ microsecond a <= microsecond b))))).

#[global] Instance time_lt_dec (a b : time) : Decision (time_lt a b).
Proof. unfold time_lt. apply _. Defined.

#[global] Instance time_le_dec (a b : time) : Decision (time_le a b).
Proof. unfold time_le. apply _. Defined.

#[global] Instance date_eq_dec : EqDecision date.
Proof. solve_decision. Defined.

#[global] Instance time_eq_dec : EqDecision time.
Proof. solve_decision. Defined.

Definition is_leap (y : Z) : bool :=
  (y mod 4 =? 0) && (negb (y mod 100 =? 0) || (y mod 400 =? 0)).

Definition days_in_month (y m : Z) : Z :=
  if m =? 2 then (if is_leap y then 29 else 28)
  else if (m =? 4) || (m =? 6) || (m =? 9) || (m =? 11) then 30
  else 31.

(** The values of the [date] type: years 1 to 9999 of the proleptic
    Gregorian calendar. *)
Definition valid_date (d : date) : Prop :=
  1 <= year d <= 9999 /\ 1 <= month d <= 12 /\
  1 <= day d <= days_in_month (year d) (month d).

Definition date_min : date := mk_date 1 1 1.

(** [d - timedelta(days=1)]: the previous calendar day; [None] is the
    [OverflowError] raised below [date.min]. *)
Definition date_minus_one_day (d : date) : option date :=
  if 1 <? day d then Some (mk_date (year d) (month d) (day d - 1))
  else if 1 <? month d then
    Some (mk_date (year d) (month d - 1) (days_in_month (year d) (month d - 1)))
  else if 1 <? year d then Some (mk_date (year d - 1) 12 31)
  else None.

(** [date.toordinal()]: the day number in the proleptic Gregorian calendar,
    0001-01-01 being day 1.  [d - timedelta(days=1)] is
    [fromordinal(d.toordinal() - 1)], out of range at 0. *)
Definition days_before_year (y : Z) : Z :=
  let y' := y - 1 in y' * 365 + y' / 4 - y' / 100 + y' / 400.

Definition days_before_month (y m : Z) : Z :=
  match m with
  | 1 => 0 | 2 => 31 | 3 => 59 | 4 => 90 | 5 => 120 | 6 => 151
  | 7 => 181 | 8 => 212 | 9 => 243 | 10 => 273 | 11 => 304 | _ => 334
  end + (if (2 <? m) && is_leap y then 1 else 0).

Definition toordinal (d : date) : Z :=
  days_before_year (year d) + days_before_month (year d) (month d) + day d.

(** ** strftime *)

Definition digit (n : Z) : ascii := ascii_of_N (48 + Z.to_N n).

(** [%m], [%d], [%H], [%M], [%S]: two decimal digits. *)
Definition pad2 (n : Z) : string :=
  String (digit (n / 10 mod 10)) (String (digit (n mod 10)) EmptyString).

(** [%Y]: four decimal digits (some C libraries leave a year below 1000
    unpadded; the dates stay distinct either way). *)
Definition pad4 (n : Z) : string :=
  String (digit (n / 1000 mod 10)) (String (digit (n / 100 mod 10)) (pad2 n)).

(** [d.strftime("%Y-%m-%d")] *)
Definition strftime_date (d : date) : string :=
  pad4 (year d) +:+ "-" +:+ pad2 (month d) +:+ "-" +:+ pad2 (day d).

(** [now_dt.strftime("%Y-%m-%d %H:%M:%S")]: the microseconds are dropped. *)
Definition strftime_datetime (now_dt : datetime) : string :=
  strftime_date (dt_date now_dt) +:+ " " +:+
  pad2 (hour (dt_time now_dt)) +:+ ":" +:+
  pad2 (minute (dt_time now_dt)) +:+ ":" +:+
  pad2 (second (dt_time now_dt)).

(** ** Shifts *)

Definition SHIFT1_START : time := mk_time 6 0 0 0.
Definition SHIFT1_END : time := mk_time 18 0 0 0.
Definition SHIFT2_START : time := mk_time 18 1 0 0.
Definition SHIFT2_END : time := mk_time 22 0 0 0.
Definition SHIFT3_START : time := mk_time 20 1 0 0.
Definition SHIFT3_END : time := mk_time 6 0 0 0.

(** The five [return] statements of [get_shift_and_business_date]. *)
Inductive branch :=
  | Shift1Window
  | Shift2Window
  | Shift3Evening
  | Shift3AfterMidnight
  | Fallback.

#[global] Instance branch_eq_dec : EqDecision branch.
Proof. solve_decision. Defined.

(** The chain of [if]s, in source order: which [return] is taken at
    time of day [t]. *)
Definition taken_branch (t : time) : branch :=
  if decide (time_le SHIFT1_START t /\ time_le t SHIFT1_END) then Shift1Window
  else if decide (time_le SHIFT2_START t /\ time_le t SHIFT2_END) then Shift2Window
  else if decide (time_le SHIFT3_START t) then Shift3Evening
  else if decide (time_lt t SHIFT3_END) then Shift3AfterMidnight
  else Fallback.

(** [now_dt] is the reading after [now_dt = now_dt or datetime.now()]. *)
Definition get_shift_and_business_date (now_dt : datetime)
  : option (string * string) :=
  let t := dt_time now_dt in
  let today := dt_date now_dt in
  match taken_branch t with
  | Shift1Window => Some ("shift1", strftime_date today)
  | Shift2Window => Some ("shift2", strftime_date today)
  | Shift3Evening => Some ("shift3", strftime_date today)
  | Shift3AfterMidnight =>
      biz ← date_minus_one_day today;
      Some ("shift3", strftime_date biz)
  | Fallback => Some ("shift3", strftime_date today)
  end.

(** [datetime.now().strftime("%Y-%m-%d")], the clock reading given. *)
Definition get_today_str (now : datetime) : string :=
  strftime_date (dt_date now).

(** ** The database *)

(** A row of [totals] and of [old_totals]: both tables have these columns. *)
Record totals_row := mk_totals_row {
  row_chat_id : Z;
  row_date : string;
  row_shift : string;
  row_currency : string;
  row_total : Z;
  row_invoices : Z
}.

Record history_row := mk_history_row {
  h_id : Z;
  h_chat_id : Z;
  h_datetime : string;
  h_business_date : string;
  h_shift : string;
  h_currency : string;
  h_amount : Z
}.

Record database := mk_database {
  totals : list totals_row;
  old_totals : list totals_row;
  history : list history_row
}.

(** The tables as [init_db] creates them. *)
Definition empty_db : database := mk_database [] [] [].

(** (chat_id, date, shift, currency): the PRIMARY KEY of [totals], and the
    GROUP BY columns of the [history] scan. *)
Definition key : Type := Z * string * string * string.

Definition row_key (r : totals_row) : key :=
  (row_chat_id r, row_date r, row_shift r, row_currency r).

Definition h_key (e : history_row) : key :=
  (h_chat_id e, h_business_date e, h_shift e, h_currency e).

(** The PRIMARY KEY constraint of [totals], which SQLite enforces. *)
Definition primary_key_ok (t : list totals_row) : Prop :=
  NoDup (row_key <$> t).

Definition Zsum (l : list Z) : Z := foldr Z.add 0 l.

(** [UPDATE t SET ... WHERE sel] *)
Definition sql_update (sel : totals_row → Prop) `{!∀ r, Decision (sel r)}
    (set : totals_row → totals_row) (t : list totals_row) : list totals_row :=
  (λ r, if decide (sel r) then set r else r) <$> t.

(** [INSERT OR REPLACE INTO totals]: a row with the same primary key is
    deleted first. *)
Definition insert_or_replace (t : list totals_row) (r : totals_row)
  : list totals_row :=
  filter (λ r', row_key r' ≠ row_key r) t ++ [r].

(** AUTOINCREMENT: one more than the largest id. *)
Definition next_id (h : list history_row) : Z :=
  foldr (λ e acc, Z.max (h_id e) acc) 0 h + 1.

(** [SELECT chat_id, business_date, shift, currency, SUM(amount), COUNT( * )
     FROM history GROUP BY chat_id, business_date, shift, currency]:
    one row per distinct key, the aggregates taken over the rows of the
    group.  The order of the groups is not observable through [totals],
    whose rows are only read by key. *)
Definition sql_group_history (h : list history_row) : list totals_row :=
  (λ k : key,
     let g := filter (λ e, h_key e = k) h in
     mk_totals_row k.1.1.1 k.1.1.2 k.1.2 k.2
       (Zsum (h_amount <$> g)) (Z.of_nat (length g)))
  <$> remove_dups (h_key <$> h).

(** DELETE FROM totals, the GROUP BY scan of [history], then one
    INSERT OR REPLACE per group. *)
Definition recalc_totals_from_history (db : database) : database :=
  (* DELETE FROM totals *)
  let cleared : list totals_row := [] in
  let rows := sql_group_history (history db) in
  mk_database (foldl insert_or_replace cleared rows) (old_totals db) (history db).

(** [now_dt] is the reading of [datetime.now()] on entry.  The ledger row
    is inserted first; then the totals row of the key is fetched and either
    updated from the fetched values or inserted with count 1. *)
Definition update_total (now_dt : datetime) (chat_id : Z) (currency : string)
    (amount : Z) (db : database) : option database :=
  '(shift, business_date) ← get_shift_and_business_date now_dt;
  let history' :=
    history db ++
    [mk_history_row (next_id (history db)) chat_id (strftime_datetime now_dt)
       business_date shift currency amount] in
  let k : key := (chat_id, business_date, shift, currency) in
  let row := head (filter (λ r, row_key r = k) (totals db)) in
  let totals' :=
    match row with
    | Some r =>
        sql_update (λ r', row_key r' = k)
          (λ r', mk_totals_row (row_chat_id r') (row_date r') (row_shift r')
                   (row_currency r') (row_total r + amount) (row_invoices r + 1))
          (totals db)
    | None =>
        totals db ++ [mk_totals_row chat_id business_date shift currency amount 1]
    end in
  Some (mk_database totals' (old_totals db) history').

(** One call of [update_total]: the clock reading and the arguments. *)
Record record_call := mk_record_call {
  rc_now : datetime;
  rc_chat_id : Z;
  rc_currency : string;
  rc_amount : Z
}.

(** A sequence of [update_total] calls.  A call that raises does so before
    it touches the database, which stays as it was. *)
Definition run_updates (calls : list record_call) (db : database) : database :=
  foldl (λ db c,
           default db
             (update_total (rc_now c) (rc_chat_id c) (rc_currency c)
                (rc_amount c) db))
        db calls.

(** [WHERE chat_id = ? AND date = ? AND shift = ?] *)
Definition at_shift (chat_id : Z) (date_str shift : string) (r : totals_row)
  : Prop :=
  row_chat_id r = chat_id ∧ row_date r = date_str ∧ row_shift r = shift.

(** [WHERE chat_id = ? AND date = ?] *)
Definition at_date (chat_id : Z) (date_str : string) (r : totals_row) : Prop :=
  row_chat_id r = chat_id ∧ row_date r = date_str.

#[global] Instance at_shift_dec chat_id date_str shift r :
  Decision (at_shift chat_id date_str shift r).
Proof. unfold at_shift. apply _. Defined.

#[global] Instance at_date_dec chat_id date_str r :
  Decision (at_date chat_id date_str r).
Proof. unfold at_date. apply _. Defined.

(** [SET total = 0, invoices = 0] *)
Definition zeroed (r : totals_row) : totals_row :=
  mk_totals_row (row_chat_id r) (row_date r) (row_shift r) (row_currency r) 0 0.

(** The row [move_to_old] inserts into [old_totals] for a selected row
    ([float(total or 0)] and [int(invoices or 0)] keep a number as it is). *)
Definition archived (chat_id : Z) (date_str shift : string) (r : totals_row)
  : totals_row :=
  mk_totals_row chat_id date_str shift (row_currency r) (row_total r)
    (row_invoices r).

(** The columns [currency, total, invoices] of a row. *)
Definition currency_columns (r : totals_row) : string * Z * Z :=
  (row_currency r, row_total r, row_invoices r).

(** ** Queries *)

(** The value of a currency in the dictionary the queries return:
    [{"total": ..., "invoices": ...}]. *)
Record summary := mk_summary {
  s_total : Z;
  s_invoices : Z
}.

#[global] Instance summary_eq_dec : EqDecision summary.
Proof. solve_decision. Defined.

Definition zero_summary : summary := mk_summary 0 0.

Definition summary_add (a b : summary) : summary :=
  mk_summary (s_total a + s_total b) (s_invoices a + s_invoices b).

(** [x or y] on an optional string: [None] and the empty string are falsy. *)
Definition py_or (x : option string) (y : string) : string :=
  match x with
  | Some s => if decide (s = "") then y else s
  | None => y
  end.

(** [{"USD": {"total": 0.0, "invoices": 0}, "KHR": {"total": 0.0, "invoices": 0}}] *)
Definition base_data : gmap string summary :=
  <["KHR" := zero_summary]> (<["USD" := zero_summary]> ∅).

(** [if currency: data[currency] = {"total": ..., "invoices": ...}] *)
Definition fill_step (data : gmap string summary) (row : string * Z * Z)
  : gmap string summary :=
  let '(currency, total, invoices) := row in
  if decide (currency = "") then data
  else <[currency := mk_summary total invoices]> data.

(** [for currency, total, invoices in rows: ...] over the initial [data]. *)
Definition fill_data (rows : list (string * Z * Z)) : gmap string summary :=
  foldl fill_step base_data rows.

(** [SELECT currency, SUM(total), SUM(invoices) ... GROUP BY currency] over
    the rows already selected by the WHERE clause. *)
Definition sql_group_currency (rows : list totals_row) : list (string * Z * Z) :=
  (λ c : string,
     let g := filter (λ r, row_currency r = c) rows in
     (c, Zsum (row_total <$> g), Zsum (row_invoices <$> g)))
  <$> remove_dups (row_currency <$> rows).

(** [now] is the reading [get_today_str()] takes when [date_str] is falsy.
    A truthy [shift] selects the rows of that shift, otherwise the rows of
    the date are grouped by currency. *)
Definition get_totals (now : datetime) (chat_id : Z) (date_str : option string)
    (shift : option string) (db : database) : gmap string summary :=
  let date_str := py_or date_str (get_today_str now) in
  let rows :=
    match shift with
    | Some sh =>
        if decide (sh = "") then
          sql_group_currency (filter (at_date chat_id date_str) (totals db))
        else
          currency_columns <$>
          filter (at_shift chat_id date_str sh) (totals db)
    | None =>
        sql_group_currency (filter (at_date chat_id date_str) (totals db))
    end in
  fill_data rows.

(** [if rows:] every selected row is copied to [old_totals], then the
    selected rows are zeroed. *)
Definition move_to_old (chat_id : Z) (shift : string) (date_str : string)
    (db : database) : database :=
  let rows := filter (at_shift chat_id date_str shift) (totals db) in
  match rows with
  | [] => db
  | _ :: _ =>
      mk_database
        (sql_update (at_shift chat_id date_str shift) zeroed (totals db))
        (old_totals db ++ (archived chat_id date_str shift <$> rows))
        (history db)
  end.

(** The archive rows of (chat_id, date), grouped by currency: all shifts,
    all closings. *)
Definition get_old_totals (now : datetime) (chat_id : Z)
    (date_str : option string) (db : database) : gmap string summary :=
  let date_str := py_or date_str (get_today_str now) in
  fill_data
    (sql_group_currency (filter (at_date chat_id date_str) (old_totals db))).

(** The "New Data" branch of [handle_message]: archive the current shift of
    the current business date, then report [get_old_totals] for that date.
    [now] is the clock reading of [get_shift_and_business_date()], [now']
    the later one [get_old_totals] would take for an omitted date. *)
Definition handle_message_new_data (now now' : datetime) (chat_id : Z) (db : database)
  : option (database * gmap string summary) :=
  '(shift_now, biz_date_now) ← get_shift_and_business_date now;
  let db' := move_to_old chat_id shift_now biz_date_now db in
  Some (db', get_old_totals now' chat_id (Some biz_date_now) db').

(** What a dictionary reports for a currency, absent entries read as zero. *)
Definition reported (data : gmap string summary) (currency : string) : summary :=
  default zero_summary (data !! currency).

(** [SELECT total, invoices FROM totals WHERE chat_id = ? AND date = ? AND
    shift = ? AND currency = ?] followed by [fetchone()], as [update_total]
    reads the row of a key. *)
Definition select_totals_row (t : list totals_row) (k : key) : option summary :=
  (λ r, mk_summary (row_total r) (row_invoices r)) <$>
  head (filter (λ r, row_key r = k) t).

(** The aggregate of a key as the specification words it: the sum of the
    amounts and the count of the ledger entries of that key; no row when the
    ledger has no entry of the key. *)
Definition ledger_group (h : list history_row) (k : key) : option summary :=
  let entries := filter (λ e, h_key e = k) h in
  if decide (entries = []) then None
  else Some (mk_summary (Zsum (h_amount <$> entries))
               (Z.of_nat (length entries))).

(** The totals agree with the ledger: the primary key holds, and the row of
    every key is the aggregate of the ledger entries of that key. *)
Definition consistent (db : database) : Prop :=
  primary_key_ok (totals db) ∧
  ∀ k, select_totals_row (totals db) k = ledger_group (history db) k.

(** A clock reading on a whole second. *)
Definition whole_second (now : datetime) : Prop :=
  valid_date (dt_date now) ∧ valid_time (dt_time now) ∧
  microsecond (dt_time now) = 0.

(** The ledger entry agrees with the classifier on every whole-second reading
    that its timestamp text denotes. *)
Definition classified_as_stored (e : history_row) : Prop :=
  ∀ now, whole_second now → strftime_datetime now = h_datetime e →
         get_shift_and_business_date now = Some (h_shift e, h_business_date e).

(** ** Concrete clock readings and databases, for the examples *)

Definition at_clock (y m d h mi s us : Z) : datetime :=
  mk_datetime (mk_date y m d) (mk_time h mi s us).

(** Two records in shift 1 of 2024-01-01. *)
Definition db_two_records : database :=
  run_updates
    [mk_record_call (at_clock 2024 1 1 7 0 0 0) 1 "USD" 500;
     mk_record_call (at_clock 2024 1 1 7 30 0 0) 1 "USD" 300]
    empty_db.

(** [db_two_records] with shift 1 closed once. *)
Definition db_shift1_closed : database :=
  move_to_old 1 "shift1" "2024-01-01" db_two_records.

(** Then one record in shift 2. *)
Definition db_second_shift : database :=
  run_updates
    [mk_record_call (at_clock 2024 1 1 19 0 0 0) 1 "USD" 300]
    db_shift1_closed.

(** ** The other branches of handle_message *)

(** The statement of the "Reset" branch:
    [UPDATE totals SET total = 0, invoices = 0 WHERE chat_id = ? AND date = ?]. *)
Definition reset_totals (chat_id : Z) (date_str : string) (db : database)
  : database :=
  mk_database (sql_update (at_date chat_id date_str) zeroed (totals db))
    (old_totals db) (history db).

(** The "Reset" branch: the business date is the one of the reading [now]
    that [handle_message] classifies on entry. *)
Definition handle_message_reset (now : datetime) (chat_id : Z) (db : database)
  : option database :=
  '(shift_now, biz_date_now) ← get_shift_and_business_date now;
  Some (reset_totals chat_id biz_date_now db).

(** [for amount, currency in amounts: update_total(chat_id, currency, amount)]:
    every call takes its own clock reading, given with the pair.  When a call
    raises, the calls before it are committed; the flag tells whether the
    loop ran to its end. *)
Fixpoint update_all (chat_id : Z) (amounts : list (datetime * (Z * string)))
    (db : database) : database * bool :=
  match amounts with
  | [] => (db, true)
  | (now_dt, (amount, currency)) :: rest =>
      match update_total now_dt chat_id currency amount db with
      | Some db' => update_all chat_id rest db'
      | None => (db, false)
      end
  end.

(** How a branch of [handle_message] ends. *)
Inductive outcome :=
  | Ignored                                   (* [return] without a reply *)
  | Replied (data : gmap string summary)      (* the totals sent back *)
  | Raised.                                   (* an exception escaped *)

(** The last branch of [handle_message]: [amounts] is the result of
    [extract_currency_amounts(text)].  The shift and the business date of the
    reply are those of the reading [now] taken on entry; [now'] is the
    reading [get_totals] would take for an omitted date. *)
Definition handle_message_amounts (now : datetime)
    (amounts : list (datetime * (Z * string))) (now' : datetime) (chat_id : Z)
    (db : database) : database * outcome :=
  match get_shift_and_business_date now with
  | None => (db, Raised)
  | Some (shift_now, biz_date_now) =>
      match amounts with
      | [] => (db, Ignored)
      | _ :: _ =>
          let '(db', finished) := update_all chat_id amounts db in
          if finished then
            (db', Replied (get_totals now' chat_id (Some biz_date_now)
                             (Some shift_now) db'))
          else (db', Raised)
      end
  end.

(** ** Sequences of operations *)

(** The four writers of the database. *)
Inductive op :=
  | OpUpdate (c : record_call)                              (* update_total *)
  | OpMoveToOld (chat_id : Z) (shift date_str : string)     (* move_to_old *)
  | OpReset (chat_id : Z) (date_str : string)               (* the Reset UPDATE *)
  | OpRecalc.                                 (* recalc_totals_from_history *)

Definition apply_op (db : database) (o : op) : database :=
  match o with
  | OpUpdate c =>
      default db
        (update_total (rc_now c) (rc_chat_id c) (rc_currency c) (rc_amount c) db)
  | OpMoveToOld chat_id shift date_str => move_to_old chat_id shift date_str db
  | OpReset chat_id date_str => reset_totals chat_id date_str db
  | OpRecalc => recalc_totals_from_history db
  end.

Definition run_ops (ops : list op) (db : database) : database :=
  foldl apply_op db ops.

(** Records and closings only: no reset, no recomputation. *)
Definition record_or_close (o : op) : Prop :=
  match o with
  | OpUpdate _ | OpMoveToOld _ _ _ => True
  | OpReset _ _ | OpRecalc => False
  end.

(** The shift names the classifier returns. *)
Definition shift_names : list string := ["shift1"; "shift2"; "shift3"].

(** A row as the operations make them: a shift of the classifier, a
    non-empty date, a count that is not negative. *)
Definition row_ok (r : totals_row) : Prop :=
  row_shift r ∈ shift_names ∧ row_date r ≠ "" ∧ 0 <= row_invoices r.

Definition entry_ok (e : history_row) : Prop :=
  h_shift e ∈ shift_names ∧ h_business_date e ≠ "".

(** The sums of the [total] and [invoices] columns over the rows whose key
    satisfies [P]. *)
Definition total_where (P : key → bool) (t : list totals_row) : summary :=
  mk_summary (Zsum (row_total <$> filter (λ r, P (row_key r)) t))
    (Zsum (row_invoices <$> filter (λ r, P (row_key r)) t)).

(** The sum of the amounts and the number of the ledger entries whose key
    satisfies [P]. *)
Definition ledger_where (P : key → bool) (h : list history_row) : summary :=
  mk_summary (Zsum (h_amount <$> filter (λ e, P (h_key e)) h))
    (Z.of_nat (length (filter (λ e, P (h_key e)) h))).

(** Everything recorded for an account, a business date and a currency,
    over all shifts. *)
Definition ledger_of_date (h : list history_row) (chat_id : Z)
    (date_str currency : string) : summary :=
  ledger_where
    (λ k, bool_decide (k.1.1.1 = chat_id ∧ k.1.1.2 = date_str ∧ k.2 = currency))
    h.

(** Everything recorded under one key. *)
Definition ledger_of_shift (h : list history_row) (chat_id : Z)
    (date_str shift currency : string) : summary :=
  ledger_where (λ k, bool_decide (k = (chat_id, date_str, shift, currency))) h.

(** The amounts of one currency in a message: their sum and their number. *)
Definition amounts_of (currency : string)
    (amounts : list (datetime * (Z * string))) : summary :=
  let sel := filter (λ a : datetime * (Z * string), a.2.2 = currency) amounts in
  mk_summary (Zsum ((λ a : datetime * (Z * string), a.2.1) <$> sel))
    (Z.of_nat (length sel)).

(** Totals and archive together account for the ledger, whatever the keys
    looked at. *)
Definition balanced (db : database) : Prop :=
  ∀ P : key → bool,
    summary_add (total_where P (totals db)) (total_where P (old_totals db)) =
    ledger_where P (history db).

(** A mixed sequence for the examples: two records, a close, a reset, a
    recomputation. *)
Definition ops_example : list op :=
  [OpUpdate (mk_record_call (at_clock 2024 1 1 7 0 0 0) 1 "USD" 500);
   OpUpdate (mk_record_call (at_clock 2024 1 1 19 0 0 0) 1 "KHR" 4000);
   OpMoveToOld 1 "shift1" "2024-01-01";
   OpReset 1 "2024-01-01";
   OpRecalc].

(** Records and closings only. *)
Definition ops_books : list op :=
  [OpUpdate (mk_record_call (at_clock 2024 1 1 7 0 0 0) 1 "USD" 500);
   OpMoveToOld 1 "shift1" "2024-01-01";
   OpUpdate (mk_record_call (at_clock 2024 1 1 7 30 0 0) 1 "USD" 300);
   OpUpdate (mk_record_call (at_clock 2024 1 1 19 0 0 0) 1 "USD" 200)].

(** ** Counts of ledger entries and of amounts *)

(** The number of the ledger entries of an account, a business date and a
    currency, over all shifts. *)
Definition entries_of_date (h : list history_row) (chat_id : Z)
    (date_str currency : string) : Z :=
  Z.of_nat
    (length
       (filter (λ e, h_chat_id e = chat_id ∧ h_business_date e = date_str ∧
                     h_currency e = currency) h)).

(** The number of the ledger entries of one key. *)
Definition entries_of_shift (h : list history_row) (chat_id : Z)
    (date_str shift currency : string) : Z :=
  Z.of_nat
    (length (filter (λ e, h_key e = (chat_id, date_str, shift, currency)) h)).

(** The number of the amounts of one currency in a message. *)
Definition amounts_in (currency : string)
    (amounts : list (datetime * (Z * string))) : Z :=
  Z.of_nat
    (length (filter (λ a : datetime * (Z * string), a.2.2 = currency) amounts)).

(** ** The REAL columns as IEEE doubles

    The same three tables and the same functions, with the columns [total]
    and [amount] as SQLite holds them: NULL or a binary64 value.  Python's
    [+] on floats is the IEEE addition; the sqlite3 module binds a NaN as
    NULL, and SQLite gives a NaN result as NULL.  The statements about the
    value of a total (not about keys, counts or zeros) are made on this
    model. *)

Module Real.

(** What a REAL column holds after a double is written to it. *)
Definition store (x : float) : option float :=
  if PrimFloat.is_nan x then None else Some x.

(** [float(x or 0)] on a fetched REAL: [None] and zero are falsy. *)
Definition float_or_0 (x : option float) : float :=
  match x with
  | None => 0%float
  | Some f => if PrimFloat.eqb f 0%float then 0%float else f
  end.

(** [SUM] over a REAL column: NULLs are skipped, no value at all gives NULL,
    otherwise the values are added, here in row order from 0.0.  (SQLite
    versions differ in the order and the compensation of the roundings of
    finite values; the statements below evaluate it on infinities only.) *)
Definition sql_sum (l : list (option float)) : option float :=
  match omap id l with
  | [] => None
  | vs => store (foldl PrimFloat.add 0%float vs)
  end.

Record totals_row := mk_totals_row {
  row_chat_id : Z;
  row_date : string;
  row_shift : string;
  row_currency : string;
  row_total : option float;
  row_invoices : Z
}.

Record history_row := mk_history_row {
  h_id : Z;
  h_chat_id : Z;
  h_datetime : string;
  h_business_date : string;
  h_shift : string;
  h_currency : string;
  h_amount : option float
}.

Record database := mk_database {
  totals : list totals_row;
  old_totals : list totals_row;
  history : list history_row
}.

Definition empty_db : database := mk_database [] [] [].

Definition row_key (r : totals_row) : key :=
  (row_chat_id r, row_date r, row_shift r, row_currency r).

Definition h_key (e : history_row) : key :=
  (h_chat_id e, h_business_date e, h_shift e, h_currency e).

Definition primary_key_ok (t : list totals_row) : Prop :=
  NoDup (row_key <$> t).

Definition sql_update (sel : totals_row → Prop) `{!∀ r, Decision (sel r)}
    (set : totals_row → totals_row) (t : list totals_row) : list totals_row :=
  (λ r, if decide (sel r) then set r else r) <$> t.

Definition insert_or_replace (t : list totals_row) (r : totals_row)
  : list totals_row :=
  filter (λ r', row_key r' ≠ row_key r) t ++ [r].

Definition next_id (h : list history_row) : Z :=
  foldr (λ e acc, Z.max (h_id e) acc) 0 h + 1.

(** The GROUP BY scan of [history]; a fetched row is then written with
    [float(total or 0)] and [int(invoices or 0)]. *)
Definition sql_group_history (h : list history_row) : list totals_row :=
  (λ k : key,
     let g := filter (λ e, h_key e = k) h in
     mk_totals_row k.1.1.1 k.1.1.2 k.1.2 k.2
       (store (float_or_0 (sql_sum (h_amount <$> g))))
       (Z.of_nat (length g)))
  <$> remove_dups (h_key <$> h).

Definition recalc_totals_from_history (db : database) : database :=
  let cleared : list totals_row := [] in
  let rows := sql_group_history (history db) in
  mk_database (foldl insert_or_replace cleared rows) (old_totals db) (history db).

(** [float(total)] on a NULL total is a [TypeError]: it is raised while the
    parameters of the UPDATE are built, nothing is committed, and the call
    is [None]. *)
Definition update_total (now_dt : datetime) (chat_id : Z) (currency : string)
    (amount : float) (db : database) : option database :=
  '(shift, business_date) ← get_shift_and_business_date now_dt;
  let history' :=
    history db ++
    [mk_history_row (next_id (history db)) chat_id (strftime_datetime now_dt)
       business_date shift currency (store amount)] in
  let k : key := (chat_id, business_date, shift, currency) in
  let row := head (filter (λ r, row_key r = k) (totals db)) in
  match row with
  | Some r =>
      total ← row_total r;
      Some (mk_database
              (sql_update (λ r', row_key r' = k)
                 (λ r', mk_totals_row (row_chat_id r') (row_date r')
                          (row_shift r') (row_currency r')
                          (store (PrimFloat.add total amount))
                          (row_invoices r + 1))
                 (totals db))
              (old_totals db) history')
  | None =>
      Some (mk_database
              (totals db ++
               [mk_totals_row chat_id business_date shift currency
                  (store amount) 1])
              (old_totals db) history')
  end.

Record record_call := mk_record_call {
  rc_now : datetime;
  rc_chat_id : Z;
  rc_currency : string;
  rc_amount : float
}.

(** A call that raises leaves the database as it was. *)
Definition run_updates (calls : list record_call) (db : database) : database :=
  foldl (λ db c,
           default db
             (update_total (rc_now c) (rc_chat_id c) (rc_currency c)
                (rc_amount c) db))
        db calls.

Definition at_shift (chat_id : Z) (date_str shift : string) (r : totals_row)
  : Prop :=
  row_chat_id r = chat_id ∧ row_date r = date_str ∧ row_shift r = shift.

Definition at_date (chat_id : Z) (date_str : string) (r : totals_row) : Prop :=
  row_chat_id r = chat_id ∧ row_date r = date_str.

#[global] Instance at_shift_real_dec chat_id date_str shift r :
  Decision (at_shift chat_id date_str shift r).
Proof. unfold at_shift. apply _. Defined.

#[global] Instance at_date_real_dec chat_id date_str r :
  Decision (at_date chat_id date_str r).
Proof. unfold at_date. apply _. Defined.

(** [SET total = 0, invoices = 0]: the integer 0 in a REAL column is 0.0. *)
Definition zeroed (r : totals_row) : totals_row :=
  mk_totals_row (row_chat_id r) (row_date r) (row_shift r) (row_currency r)
    (Some 0%float) 0.

(** The row inserted into [old_totals]: [float(total or 0)],
    [int(invoices or 0)]. *)
Definition archived (chat_id : Z) (date_str shift : string) (r : totals_row)
  : totals_row :=
  mk_totals_row chat_id date_str shift (row_currency r)
    (store (float_or_0 (row_total r))) (row_invoices r).

Definition move_to_old (chat_id : Z) (shift : string) (date_str : string)
    (db : database) : database :=
  let rows := filter (at_shift chat_id date_str shift) (totals db) in
  match rows with
  | [] => db
  | _ :: _ =>
      mk_database
        (sql_update (at_shift chat_id date_str shift) zeroed (totals db))
        (old_totals db ++ (archived chat_id date_str shift <$> rows))
        (history db)
  end.

(** [{"total": float(total or 0), "invoices": int(invoices or 0)}] *)
Record summary := mk_summary {
  s_total : float;
  s_invoices : Z
}.

Definition base_data : gmap string summary :=
  <["KHR" := mk_summary 0%float 0]> (<["USD" := mk_summary 0%float 0]> ∅).

Definition fill_step (data : gmap string summary)
    (row : string * option float * Z) : gmap string summary :=
  let '(currency, total, invoices) := row in
  if decide (currency = "") then data
  else <[currency := mk_summary (float_or_0 total) invoices]> data.

Definition fill_data (rows : list (string * option float * Z))
  : gmap string summary :=
  foldl fill_step base_data rows.

Definition sql_group_currency (rows : list totals_row)
  : list (string * option float * Z) :=
  (λ c : string,
     let g := filter (λ r, row_currency r = c) rows in
     (c, sql_sum (row_total <$> g), Zsum (row_invoices <$> g)))
  <$> remove_dups (row_currency <$> rows).

Definition get_totals (now : datetime) (chat_id : Z) (date_str : option string)
    (shift : option string) (db : database) : gmap string summary :=
  let date_str := py_or date_str (get_today_str now) in
  let rows :=
    match shift with
    | Some sh =>
        if decide (sh = "") then
          sql_group_currency (filter (at_date chat_id date_str) (totals db))
        else
          (λ r, (row_currency r, row_total r, row_invoices r)) <$>
          filter (at_shift chat_id date_str sh) (totals db)
    | None =>
        sql_group_currency (filter (at_date chat_id date_str) (totals db))
    end in
  fill_data rows.

Definition get_old_totals (now : datetime) (chat_id : Z)
    (date_str : option string) (db : database) : gmap string summary :=
  let date_str := py_or date_str (get_today_str now) in
  fill_data
    (sql_group_currency (filter (at_date chat_id date_str) (old_totals db))).

(** The total and the count of the row of a key, as [update_total] fetches
    them. *)
Definition select_totals_row (t : list totals_row) (k : key)
  : option (option float * Z) :=
  (λ r, (row_total r, row_invoices r)) <$>
  head (filter (λ r, row_key r = k) t).





(** The first in shift 1, the shift closed, the second in shift 2. *)
Definition db_inf_closed : database :=
  run_updates
    [mk_record_call (at_clock 2024 1 1 19 0 0 0) 1 "USD" neg_infinity]
    (move_to_old 1 "shift1" "2024-01-01"
       (run_updates
          [mk_record_call (at_clock 2024 1 1 7 0 0 0) 1 "USD" infinity]
          empty_db)).

End Real.

(** ** Calendar lemmas *)

Lemma days_in_month_bounds y m : 28 <= days_in_month y m <= 31.
Proof.
  unfold days_in_month.
  destruct (m =? 2); [destruct (is_leap y); lia|].
  destruct ((m =? 4) || (m =? 6) || (m =? 9) || (m =? 11)); lia.
Qed.

Lemma date_minus_one_day_valid d y :
  valid_date d → date_minus_one_day d = Some y → valid_date y ∧ y ≠ d.
Proof.
  unfold valid_date, date_minus_one_day.
  intros (Hy & Hm & Hd) H.
  destruct (Z.ltb_spec 1 (day d)).
  { injection H as <-. simpl. split; [lia|]. intros E.
    apply (f_equal day) in E. simpl in E. lia. }
  destruct (Z.ltb_spec 1 (month d)).
  { injection H as <-. simpl.
    pose proof (days_in_month_bounds (year d) (month d - 1)).
    split; [lia|]. intros E. apply (f_equal month) in E. simpl in E. lia. }
  destruct (Z.ltb_spec 1 (year d)); [|discriminate].
  injection H as <-. simpl. split.
  - unfold days_in_month. simpl. lia.
  - intros E. apply (f_equal year) in E. simpl in E. lia.
Qed.

Lemma date_minus_one_day_Some d :
  valid_date d → d ≠ date_min → is_Some (date_minus_one_day d).
Proof.
  unfold valid_date, date_minus_one_day. intros (Hy & Hm & Hd) Hne.
  destruct (Z.ltb_spec 1 (day d)); [eauto|].
  destruct (Z.ltb_spec 1 (month d)); [eauto|].
  destruct (Z.ltb_spec 1 (year d)); [eauto|].
  exfalso. apply Hne. destruct d as [y m dd]. simpl in *.
  unfold date_min. f_equal; lia.
Qed.

Lemma date_minus_one_day_min : date_minus_one_day date_min = None.
Proof. reflexivity. Qed.

(** ** strftime is injective on dates *)

Lemma digit_inj a b : 0 <= a < 10 → 0 <= b < 10 → digit a = digit b → a = b.
Proof.
  unfold digit. intros Ha Hb E.
  apply (f_equal N_of_ascii) in E.
  rewrite !N_ascii_embedding in E by lia. lia.
Qed.

Lemma pad2_inj a b : 0 <= a < 100 → 0 <= b < 100 → pad2 a = pad2 b → a = b.
Proof.
  unfold pad2. intros Ha Hb E. injection E as E1 E2.
  apply digit_inj in E1; [|apply Z.mod_pos_bound; lia..].
  apply digit_inj in E2; [|apply Z.mod_pos_bound; lia..].
  Z.div_mod_to_equations. lia.
Qed.

Lemma pad4_inj a b :
  0 <= a < 10000 → 0 <= b < 10000 → pad4 a = pad4 b → a = b.
Proof.
  unfold pad4, pad2. intros Ha Hb E. injection E as E1 E2 E3 E4.
  apply digit_inj in E1; [|apply Z.mod_pos_bound; lia..].
  apply digit_inj in E2; [|apply Z.mod_pos_bound; lia..].
  apply digit_inj in E3; [|apply Z.mod_pos_bound; lia..].
  apply digit_inj in E4; [|apply Z.mod_pos_bound; lia..].
  Z.div_mod_to_equations. lia.
Qed.

Lemma strftime_date_inj a b :
  valid_date a → valid_date b → strftime_date a = strftime_date b → a = b.
Proof.
  unfold valid_date, strftime_date. intros (Hy & Hm & Hd) (Hy' & Hm' & Hd') E.
  pose proof (days_in_month_bounds (year a) (month a)).
  pose proof (days_in_month_bounds (year b) (month b)).
  unfold pad4, pad2 in E. simpl in E.
  injection E as E1 E2 E3 E4 E5 E6 E7 E8.
  assert (Ey : pad4 (year a) = pad4 (year b)) by (unfold pad4, pad2; congruence).
  assert (Em : pad2 (month a) = pad2 (month b)) by (unfold pad2; congruence).
  assert (Ed : pad2 (day a) = pad2 (day b)) by (unfold pad2; congruence).
  apply pad4_inj in Ey; [|lia..].
  apply pad2_inj in Em; [|lia..].
  apply pad2_inj in Ed; [|lia..].
  destruct a, b; simpl in *; congruence.
Qed.

Lemma strftime_date_nonempty d : strftime_date d ≠ "".
Proof. unfold strftime_date, pad4. simpl. discriminate. Qed.

(** [date_minus_one_day] is the subtraction of one from the ordinal. *)
Lemma date_minus_one_day_ordinal d y :
  valid_date d → date_minus_one_day d = Some y → toordinal y = toordinal d - 1.
Proof.
  unfold valid_date, date_minus_one_day, toordinal.
  intros (Hy & Hm & Hd) H.
  destruct (Z.ltb_spec 1 (day d)).
  { injection H as <-. simpl. lia. }
  destruct (Z.ltb_spec 1 (month d)).
  { injection H as <-. simpl.
    assert (Hc : month d = 2 ∨ month d = 3 ∨ month d = 4 ∨ month d = 5 ∨
                 month d = 6 ∨ month d = 7 ∨ month d = 8 ∨ month d = 9 ∨
                 month d = 10 ∨ month d = 11 ∨ month d = 12) by lia.
    unfold days_before_month, days_in_month.
    destruct Hc as [-> | [-> | [-> | [-> | [-> | [-> | [-> | [-> | [-> | [-> | ->]]]]]]]]]];
      simpl; destruct (is_leap (year d)); simpl; lia. }
  destruct (Z.ltb_spec 1 (year d)); [|discriminate].
  injection H as <-. simpl.
  assert (Em : month d = 1) by lia. rewrite Em.
  unfold days_before_month, days_before_year, is_leap. simpl.
  destruct (Z.eqb_spec ((year d - 1) mod 4) 0);
    destruct (Z.eqb_spec ((year d - 1) mod 100) 0);
    destruct (Z.eqb_spec ((year d - 1) mod 400) 0); simpl;
    Z.div_mod_to_equations; lia.
Qed.

Lemma date_minus_one_day_None d :
  valid_date d → date_minus_one_day d = None → toordinal d = 1.
Proof.
  intros Hv H. destruct (decide (d = date_min)) as [->|Hne]; [reflexivity|].
  destruct (date_minus_one_day_Some d Hv Hne) as [y Hy]. congruence.
Qed.

(** ** The classifier *)

Ltac time_cases :=
  unfold taken_branch, SHIFT1_START, SHIFT1_END, SHIFT2_START, SHIFT2_END,
    SHIFT3_START, SHIFT3_END, time_le, time_lt in *;
  simpl in *;
  repeat case_decide; try reflexivity; try lia.

Lemma taken_branch_shift1 t :
  time_le (mk_time 6 0 0 0) t → time_le t (mk_time 18 0 0 0) →
  taken_branch t = Shift1Window.
Proof. intros H1 H2. time_cases. Qed.

Lemma taken_branch_after_midnight t :
  time_lt t (mk_time 6 0 0 0) → taken_branch t = Shift3AfterMidnight.
Proof. intros H. time_cases. Qed.

Lemma taken_branch_overlap t :
  time_le (mk_time 20 1 0 0) t → time_le t (mk_time 22 0 0 0) →
  taken_branch t = Shift2Window.
Proof. intros H1 H2. time_cases. Qed.

(** The fallback is taken exactly strictly between 18:00:00 and 18:01:00. *)
Lemma taken_branch_fallback_iff t :
  taken_branch t = Fallback ↔ time_lt SHIFT1_END t ∧ time_lt t SHIFT2_START.
Proof.
  split.
  - intros H. time_cases; try discriminate.
  - intros [H1 H2]. time_cases.
Qed.

Lemma get_shift_and_business_date_nonempty now_dt sh d :
  get_shift_and_business_date now_dt = Some (sh, d) → sh ≠ "" ∧ d ≠ "".
Proof.
  unfold get_shift_and_business_date.
  destruct (taken_branch (dt_time now_dt)); simpl;
    try (intros [= <- <-]; split; [discriminate|apply strftime_date_nonempty]).
  destruct (date_minus_one_day (dt_date now_dt)); simpl; [|discriminate].
  intros [= <- <-]. split; [discriminate|apply strftime_date_nonempty].
Qed.

(** C3. For a time of day in [00:00:00, 06:00:00) the classifier answers
    shift3 with the calendar date minus one day: the subtraction is
    Python's, so at 0001-01-01, where it overflows, the classifier raises,
    and on every later date the answer is the date whose ordinal is one
    less.  For a time of day in [06:00:00, 18:00:00] it answers shift1 with
    the calendar date. *)
Theorem classify_after_midnight_and_shift1 (now_dt : datetime) :
  (time_le (mk_time 0 0 0 0) (dt_time now_dt) →
   time_lt (dt_time now_dt) (mk_time 6 0 0 0) →
   get_shift_and_business_date now_dt =
     (λ biz, ("shift3", strftime_date biz)) <$>
       date_minus_one_day (dt_date now_dt)) ∧
  (time_le (mk_time 0 0 0 0) (dt_time now_dt) →
   time_lt (dt_time now_dt) (mk_time 6 0 0 0) →
   valid_date (dt_date now_dt) → dt_date now_dt ≠ date_min →
   ∃ biz, get_shift_and_business_date now_dt =
            Some ("shift3", strftime_date biz) ∧
          valid_date biz ∧ toordinal biz = toordinal (dt_date now_dt) - 1) ∧
  (time_le (mk_time 6 0 0 0) (dt_time now_dt) →
   time_le (dt_time now_dt) (mk_time 18 0 0 0) →
   get_shift_and_business_date now_dt =
     Some ("shift1", strftime_date (dt_date now_dt))).
Proof.
  assert (Hnight : time_lt (dt_time now_dt) (mk_time 6 0 0 0) →
            get_shift_and_business_date now_dt =
              (λ biz, ("shift3", strftime_date biz)) <$>
                date_minus_one_day (dt_date now_dt)).
  { intros H. unfold get_shift_and_business_date.
    rewrite (taken_branch_after_midnight _ H).
    destruct (date_minus_one_day (dt_date now_dt)); reflexivity. }
  split; [intros _; exact Hnight|]. split.
  - intros _ H Hv Hne. rewrite (Hnight H).
    destruct (date_minus_one_day_Some _ Hv Hne) as [biz Hb].
    exists biz. rewrite Hb. split; [reflexivity|].
    split; [by eapply date_minus_one_day_valid|].
    by apply date_minus_one_day_ordinal.
  - intros H1 H2. unfold get_shift_and_business_date.
    rewrite (taken_branch_shift1 _ H1 H2). reflexivity.
Qed.

Lemma classify_after_midnight_and_shift1_witness :
  get_shift_and_business_date (at_clock 2024 3 1 1 0 0 0) =
    Some ("shift3", "2024-02-29") ∧
  (∃ biz, get_shift_and_business_date (at_clock 2024 3 1 1 0 0 0) =
            Some ("shift3", strftime_date biz) ∧
          valid_date biz ∧ toordinal biz = toordinal (mk_date 2024 3 1) - 1) ∧
  get_shift_and_business_date (at_clock 2024 1 1 18 0 0 0) =
    Some ("shift1", "2024-01-01").
Proof.
  assert (H0 : time_le (mk_time 0 0 0 0) (dt_time (at_clock 2024 3 1 1 0 0 0)))
    by (unfold time_le; simpl; lia).
  assert (H6 : time_lt (dt_time (at_clock 2024 3 1 1 0 0 0)) (mk_time 6 0 0 0))
    by (unfold time_lt; simpl; lia).
  assert (Hv : valid_date (dt_date (at_clock 2024 3 1 1 0 0 0)))
    by (unfold valid_date; cbn; lia).
  assert (Hne : dt_date (at_clock 2024 3 1 1 0 0 0) ≠ date_min) by discriminate.
  split; [|split].
  - exact (proj1 (classify_after_midnight_and_shift1 _) H0 H6).
  - exact (proj1 (proj2 (classify_after_midnight_and_shift1 _)) H0 H6 Hv Hne).
  - apply (proj2 (proj2 (classify_after_midnight_and_shift1
                           (at_clock 2024 1 1 18 0 0 0))));
      unfold time_le; simpl; lia.
Defined.

(** C4. In the region 20:01:00 - 22:00:00 the tests of shift2 and of evening
    shift3 both hold, the test of shift1 does not, and the classifier, which
    tries shift1, shift2, shift3 in this order, answers shift2 with the
    calendar date. *)
Theorem classify_overlap_is_shift2 (now_dt : datetime) :
  time_le (mk_time 20 1 0 0) (dt_time now_dt) →
  time_le (dt_time now_dt) (mk_time 22 0 0 0) →
  get_shift_and_business_date now_dt =
    Some ("shift2", strftime_date (dt_date now_dt)) ∧
  taken_branch (dt_time now_dt) = Shift2Window ∧
  ¬ (time_le SHIFT1_START (dt_time now_dt) ∧ time_le (dt_time now_dt) SHIFT1_END) ∧
  (time_le SHIFT2_START (dt_time now_dt) ∧ time_le (dt_time now_dt) SHIFT2_END) ∧
  time_le SHIFT3_START (dt_time now_dt).
Proof.
  intros H1 H2. unfold get_shift_and_business_date.
  rewrite (taken_branch_overlap _ H1 H2).
  split; [reflexivity|]. split; [reflexivity|].
  unfold SHIFT1_START, SHIFT1_END, SHIFT2_START, SHIFT2_END, SHIFT3_START,
    time_le in *. simpl in *. lia.
Qed.

Lemma classify_overlap_is_shift2_witness :
  get_shift_and_business_date (at_clock 2024 1 1 21 0 0 0) =
    Some ("shift2", "2024-01-01").
Proof.
  apply (classify_overlap_is_shift2 (at_clock 2024 1 1 21 0 0 0));
    unfold time_le; simpl; lia.
Defined.

(** C5. At 18:00:30 none of the four tests holds: the classifier leaves
    through its last [return], the fallback. *)
Theorem fallback_reached_at_18_00_30 :
  taken_branch (mk_time 18 0 30 0) = Fallback ∧
  get_shift_and_business_date (at_clock 2024 1 1 18 0 30 0) =
    Some ("shift3", "2024-01-01").
Proof. split; reflexivity. Qed.

Lemma py_or_default (y : string) : py_or None y = y ∧ py_or (Some y) y = y.
Proof. split; [reflexivity|]. unfold py_or. case_decide; congruence. Qed.

(** ** Tables: selections, updates, groups *)

Lemma Zsum_app l k : Zsum (l ++ k) = Zsum l + Zsum k.
Proof. unfold Zsum. induction l as [|x l IH]; simpl; lia. Qed.

Lemma row_key_of_group (k : key) tot inv :
  row_key (mk_totals_row k.1.1.1 k.1.1.2 k.1.2 k.2 tot inv) = k.
Proof. by destruct k as [[[a d] s] c]. Qed.

Section sql_update.
Context (sel : totals_row → Prop) `{!∀ r, Decision (sel r)}.
Context (set : totals_row → totals_row).

Lemma filter_sql_update_selected t :
  (∀ r, sel r → sel (set r)) →
  filter sel (sql_update sel set t) = set <$> filter sel t.
Proof.
  intros Hset. unfold sql_update.
  induction t as [|r t IH]; [done|]. rewrite fmap_cons.
  destruct (decide (sel r)) as [Hr|Hr].
  - rewrite !filter_cons_True by auto. rewrite fmap_cons. by f_equal.
  - by rewrite !filter_cons_False.
Qed.

Lemma filter_sql_update_other (P : totals_row → Prop) `{!∀ r, Decision (P r)} t :
  (∀ r, sel r → ¬ P r ∧ ¬ P (set r)) →
  filter P (sql_update sel set t) = filter P t.
Proof.
  intros Hother. unfold sql_update.
  induction t as [|r t IH]; [done|]. rewrite fmap_cons.
  destruct (decide (sel r)) as [Hr|Hr].
  - destruct (Hother r Hr). by rewrite !filter_cons_False.
  - destruct (decide (P r)).
    + rewrite !filter_cons_True by done. by f_equal.
    + by rewrite !filter_cons_False.
Qed.

Lemma sql_update_keys t :
  (∀ r, row_key (set r) = row_key r) →
  row_key <$> sql_update sel set t = row_key <$> t.
Proof.
  intros Hkey. unfold sql_update.
  induction t as [|r t IH]; [done|]. rewrite !fmap_cons. f_equal; [|done].
  case_decide; auto.
Qed.
End sql_update.

(** ** Recomputation *)

(** With pairwise distinct keys, INSERT OR REPLACE never replaces. *)
Lemma foldl_insert_or_replace_fresh rows acc :
  NoDup (row_key <$> (acc ++ rows)) →
  foldl insert_or_replace acc rows = acc ++ rows.
Proof.
  revert acc. induction rows as [|r rows IH]; intros acc Hnd; simpl.
  { by rewrite app_nil_r. }
  assert (Hfresh : filter (λ r', row_key r' ≠ row_key r) acc = acc).
  { rewrite fmap_app, fmap_cons in Hnd.
    apply NoDup_app in Hnd as (_ & Hdisj & _).
    clear IH. induction acc as [|a acc IHacc]; [done|].
    rewrite filter_cons_True.
    - f_equal. apply IHacc. intros x Hx. apply Hdisj. rewrite fmap_cons. by right.
    - intros Heq. apply (Hdisj (row_key a)).
      + rewrite fmap_cons. by left.
      + rewrite Heq. by left. }
  unfold insert_or_replace at 2. rewrite Hfresh.
  rewrite IH; rewrite <- app_assoc; done.
Qed.

Lemma sql_group_history_keys h :
  row_key <$> sql_group_history h = remove_dups (h_key <$> h).
Proof.
  unfold sql_group_history. rewrite <- list_fmap_compose.
  rewrite <- (list_fmap_id (remove_dups _)) at 2.
  apply list_fmap_ext. intros _ k _. simpl. apply row_key_of_group.
Qed.

Lemma filter_key_fmap_NoDup (f : key → totals_row) (ks : list key) (k : key) :
  (∀ k', row_key (f k') = k') → NoDup ks →
  filter (λ r, row_key r = k) (f <$> ks) = if decide (k ∈ ks) then [f k] else [].
Proof.
  intros Hf. induction 1 as [|k' ks Hnotin Hnd IH]; [done|].
  rewrite fmap_cons. destruct (decide (k' = k)) as [->|Hne].
  - rewrite filter_cons_True by apply Hf.
    rewrite decide_True by by left.
    rewrite IH, decide_False; done.
  - rewrite filter_cons_False by (rewrite Hf; done).
    rewrite IH. destruct (decide (k ∈ ks)) as [Hin|Hin].
    + rewrite decide_True; [done|by right].
    + rewrite decide_False; [done|].
      intros Hc. apply elem_of_cons in Hc as [->|]; done.
Qed.

Lemma elem_of_h_keys h k :
  k ∈ h_key <$> h ↔ filter (λ e, h_key e = k) h ≠ [].
Proof.
  split.
  - intros (e & -> & He)%list_elem_of_fmap Hnil.
    by apply (filter_nil_not_elem_of _ _ e Hnil).
  - intros Hne. destruct (filter _ h) as [|e l] eqn:Hf; [done|].
    assert (He : e ∈ filter (λ e, h_key e = k) h) by (rewrite Hf; by left).
    apply list_elem_of_filter in He as [<- He]. by apply list_elem_of_fmap_2.
Qed.

Lemma recalc_totals (db : database) :
  totals (recalc_totals_from_history db) = sql_group_history (history db).
Proof.
  unfold recalc_totals_from_history. simpl.
  rewrite foldl_insert_or_replace_fresh; [done|]. simpl.
  rewrite sql_group_history_keys. apply NoDup_remove_dups.
Qed.

Lemma recalc_consistent (db : database) :
  consistent (recalc_totals_from_history db).
Proof.
  split.
  - unfold primary_key_ok. rewrite recalc_totals, sql_group_history_keys.
    apply NoDup_remove_dups.
  - intros k. rewrite recalc_totals. simpl.
    unfold select_totals_row, sql_group_history, ledger_group.
    rewrite filter_key_fmap_NoDup;
      [|intros; apply row_key_of_group|apply NoDup_remove_dups].
    destruct (decide (k ∈ remove_dups (h_key <$> history db))) as [Hin|Hin];
      rewrite elem_of_remove_dups, elem_of_h_keys in Hin.
    + rewrite decide_False by done. reflexivity.
    + rewrite decide_True; [done|].
      by destruct (decide (filter (λ e, h_key e = k) (history db) = [])).
Qed.

(** C2. [recalc_totals_from_history] run twice leaves the database that one
    run leaves, so every totals query answers the same. *)
Theorem recalc_idempotent (db : database) :
  recalc_totals_from_history (recalc_totals_from_history db) =
    recalc_totals_from_history db ∧
  ∀ now chat_id date_str shift,
    get_totals now chat_id date_str shift
      (recalc_totals_from_history (recalc_totals_from_history db)) =
    get_totals now chat_id date_str shift (recalc_totals_from_history db).
Proof.
  assert (H : recalc_totals_from_history (recalc_totals_from_history db) =
              recalc_totals_from_history db) by reflexivity.
  split; [exact H|]. intros. by rewrite H.
Qed.

(** ** The dictionary of a query *)

Lemma filter_fmap_comm {A B} (P : B → Prop) `{!∀ y, Decision (P y)}
    (Q : A → Prop) `{!∀ x, Decision (Q x)} (f : A → B) (l : list A) :
  (∀ x, P (f x) ↔ Q x) → filter P (f <$> l) = f <$> filter Q l.
Proof.
  intros HPQ. induction l as [|x l IH]; [done|]. rewrite fmap_cons.
  destruct (decide (Q x)) as [Hx|Hx].
  - rewrite !filter_cons_True by (done || by apply HPQ).
    rewrite fmap_cons. by f_equal.
  - rewrite !filter_cons_False by (done || by rewrite HPQ). done.
Qed.

Lemma base_data_lookup cur :
  base_data !! cur = None ∨ base_data !! cur = Some zero_summary.
Proof.
  unfold base_data.
  destruct (decide ("KHR" = cur)) as [<-|]; [right; apply lookup_insert_eq|].
  rewrite lookup_insert_ne by done.
  destruct (decide ("USD" = cur)) as [<-|]; [right; apply lookup_insert_eq|].
  rewrite lookup_insert_ne by done. by left.
Qed.

Lemma reported_base_data cur : reported base_data cur = zero_summary.
Proof. unfold reported. by destruct (base_data_lookup cur) as [-> | ->]. Qed.

(** The loop never writes the empty currency. *)
Lemma fill_step_empty_key rows acc :
  foldl fill_step acc rows !! "" = acc !! "".
Proof.
  revert acc. induction rows as [|[[c t] n] rows IH]; intros acc; [done|].
  simpl. rewrite IH. case_decide; [done|]. by rewrite lookup_insert_ne.
Qed.

(** One row per currency of [cs], its values a function of the currency:
    the shape of a GROUP BY currency result. *)
Lemma fill_step_groups (T N : string → Z) cs acc cur :
  cur ≠ "" →
  foldl fill_step acc ((λ c, (c, T c, N c)) <$> cs) !! cur =
    if decide (cur ∈ cs) then Some (mk_summary (T cur) (N cur)) else acc !! cur.
Proof.
  intros Hcur. revert acc.
  induction cs as [|c cs IH]; intros acc; [done|].
  rewrite fmap_cons. simpl. rewrite IH.
  destruct (decide (cur ∈ cs)) as [Hin|Hin].
  { rewrite (decide_True (P := cur ∈ c :: cs)); [done|by right]. }
  destruct (decide (c = cur)) as [->|Hne].
  - rewrite (decide_True (P := cur ∈ cur :: cs)) by by left.
    rewrite decide_False by done. apply lookup_insert_eq.
  - rewrite (decide_False (P := cur ∈ c :: cs)).
    + case_decide; [done|]. by rewrite lookup_insert_ne.
    + intros [->|]%elem_of_cons; done.
Qed.

(** Rows with pairwise distinct currencies: the shape of a selection by
    (chat_id, date, shift) under the primary key. *)
Lemma fill_step_rows (rows : list totals_row) acc cur :
  NoDup (row_currency <$> rows) → cur ≠ "" →
  foldl fill_step acc (currency_columns <$> rows) !! cur =
    match filter (λ r, row_currency r = cur) rows with
    | [] => acc !! cur
    | g => Some (mk_summary (Zsum (row_total <$> g)) (Zsum (row_invoices <$> g)))
    end.
Proof.
  intros Hnd Hcur. revert acc.
  induction rows as [|r rows IH]; intros acc; [done|].
  rewrite fmap_cons in Hnd. apply NoDup_cons in Hnd as [Hfresh Hnd].
  rewrite fmap_cons. simpl. rewrite (IH Hnd).
  destruct (decide (row_currency r = cur)) as [Hr|Hr].
  - rewrite filter_cons_True by done.
    assert (Hnil : filter (λ r0, row_currency r0 = cur) rows = []).
    { destruct (filter _ rows) as [|r' l] eqn:Hf; [done|]. exfalso.
      assert (Hin : r' ∈ filter (λ r0, row_currency r0 = cur) rows)
        by (rewrite Hf; by left).
      apply list_elem_of_filter in Hin as [Hc Hin]. apply Hfresh.
      rewrite Hr, <- Hc. by apply list_elem_of_fmap_2. }
    rewrite Hnil. simpl. rewrite decide_False by congruence.
    rewrite Hr, lookup_insert_eq. f_equal. f_equal; lia.
  - rewrite filter_cons_False by done.
    destruct (filter (λ r0, row_currency r0 = cur) rows); [|done].
    case_decide; [done|]. by rewrite lookup_insert_ne.
Qed.

Lemma elem_of_currencies (rows : list totals_row) cur :
  cur ∈ row_currency <$> rows ↔ filter (λ r, row_currency r = cur) rows ≠ [].
Proof.
  split.
  - intros (r & -> & Hr)%list_elem_of_fmap Hnil.
    by apply (filter_nil_not_elem_of _ _ r Hnil).
  - intros Hne. destruct (filter _ rows) as [|r l] eqn:Hf; [done|].
    assert (Hr : r ∈ filter (λ r, row_currency r = cur) rows)
      by (rewrite Hf; by left).
    apply list_elem_of_filter in Hr as [<- Hr]. by apply list_elem_of_fmap_2.
Qed.

Lemma fill_data_group_lookup (rows : list totals_row) cur :
  fill_data (sql_group_currency rows) !! cur =
    if decide (cur = "") then None
    else if decide (cur ∈ row_currency <$> rows) then
      Some (mk_summary
              (Zsum (row_total <$> filter (λ r, row_currency r = cur) rows))
              (Zsum (row_invoices <$> filter (λ r, row_currency r = cur) rows)))
    else base_data !! cur.
Proof.
  unfold fill_data, sql_group_currency.
  destruct (decide (cur = "")) as [->|Hcur].
  { by rewrite fill_step_empty_key. }
  rewrite (fill_step_groups
             (λ c, Zsum (row_total <$> filter (λ r, row_currency r = c) rows))
             (λ c, Zsum (row_invoices <$> filter (λ r, row_currency r = c) rows)))
    by done.
  destruct (decide (cur ∈ remove_dups (row_currency <$> rows))) as [Hin|Hin];
    rewrite elem_of_remove_dups in Hin.
  - by rewrite decide_True.
  - by rewrite decide_False.
Qed.

(** What a GROUP BY currency query reports: per currency, the sums over the
    selected rows. *)
Lemma reported_group (rows : list totals_row) cur :
  reported (fill_data (sql_group_currency rows)) cur =
    if decide (cur = "") then zero_summary
    else mk_summary
           (Zsum (row_total <$> filter (λ r, row_currency r = cur) rows))
           (Zsum (row_invoices <$> filter (λ r, row_currency r = cur) rows)).
Proof.
  unfold reported at 1. rewrite fill_data_group_lookup.
  case_decide; [done|].
  destruct (decide (cur ∈ row_currency <$> rows)) as [Hin|Hin]; [done|].
  fold (reported base_data cur). rewrite reported_base_data.
  rewrite elem_of_currencies in Hin.
  destruct (filter (λ r, row_currency r = cur) rows); [done|].
  by destruct Hin.
Qed.

(** The same for the rows of one shift, which the primary key makes
    distinct in their currencies. *)
Lemma reported_rows (rows : list totals_row) cur :
  NoDup (row_currency <$> rows) →
  reported (fill_data (currency_columns <$> rows)) cur =
    if decide (cur = "") then zero_summary
    else mk_summary
           (Zsum (row_total <$> filter (λ r, row_currency r = cur) rows))
           (Zsum (row_invoices <$> filter (λ r, row_currency r = cur) rows)).
Proof.
  intros Hnd. unfold reported at 1, fill_data.
  destruct (decide (cur = "")) as [->|Hcur].
  { by rewrite fill_step_empty_key. }
  rewrite fill_step_rows by done.
  destruct (filter (λ r, row_currency r = cur) rows); [|done].
  fold (reported base_data cur). by rewrite reported_base_data.
Qed.

Lemma primary_key_currencies t chat_id date_str shift :
  primary_key_ok t →
  NoDup (row_currency <$> filter (at_shift chat_id date_str shift) t).
Proof.
  unfold primary_key_ok.
  induction t as [|r t IH]; intros Hpk; [apply NoDup_nil_2|].
  rewrite fmap_cons in Hpk. apply NoDup_cons in Hpk as [Hfresh Hpk].
  destruct (decide (at_shift chat_id date_str shift r)) as [Hr|Hr].
  - rewrite filter_cons_True by done. rewrite fmap_cons.
    apply NoDup_cons. split; [|by apply IH].
    intros (r' & Hc & Hin)%list_elem_of_fmap.
    apply list_elem_of_filter in Hin as [Hr' Hin].
    apply Hfresh. apply list_elem_of_fmap. exists r'. split; [|done].
    destruct Hr as (? & ? & ?), Hr' as (? & ? & ?).
    unfold row_key. congruence.
  - rewrite filter_cons_False by done. by apply IH.
Qed.

(** ** Closing a shift *)

Lemma sql_update_none (sel : totals_row → Prop) `{!∀ r, Decision (sel r)}
    (set : totals_row → totals_row) t :
  filter sel t = [] → sql_update sel set t = t.
Proof.
  unfold sql_update. induction t as [|r t IH]; [done|]. intros Hnil.
  rewrite fmap_cons. destruct (decide (sel r)) as [Hr|Hr].
  - by rewrite filter_cons_True in Hnil.
  - rewrite filter_cons_False in Hnil by done. by rewrite IH.
Qed.

Lemma move_to_old_fields chat_id shift date_str db :
  totals (move_to_old chat_id shift date_str db) =
    sql_update (at_shift chat_id date_str shift) zeroed (totals db) ∧
  old_totals (move_to_old chat_id shift date_str db) =
    old_totals db ++
    (archived chat_id date_str shift <$>
       filter (at_shift chat_id date_str shift) (totals db)) ∧
  history (move_to_old chat_id shift date_str db) = history db.
Proof.
  unfold move_to_old.
  destruct (filter (at_shift chat_id date_str shift) (totals db)) eqn:Hrows;
    simpl; [|done].
  rewrite sql_update_none by done. by rewrite app_nil_r.
Qed.

Lemma move_to_old_selected chat_id shift date_str db :
  filter (at_shift chat_id date_str shift)
    (totals (move_to_old chat_id shift date_str db)) =
  zeroed <$> filter (at_shift chat_id date_str shift) (totals db).
Proof.
  destruct (move_to_old_fields chat_id shift date_str db) as (-> & _ & _).
  by apply filter_sql_update_selected.
Qed.

Lemma move_to_old_primary_key chat_id shift date_str db :
  primary_key_ok (totals db) →
  primary_key_ok (totals (move_to_old chat_id shift date_str db)).
Proof.
  destruct (move_to_old_fields chat_id shift date_str db) as (-> & _ & _).
  unfold primary_key_ok. by rewrite sql_update_keys.
Qed.

Lemma fill_step_zero rows acc :
  Forall (λ row : string * Z * Z, row.1.2 = 0 ∧ row.2 = 0) rows →
  (∀ cur, acc !! cur = base_data !! cur ∨ acc !! cur = Some zero_summary) →
  ∀ cur, foldl fill_step acc rows !! cur = base_data !! cur ∨
         foldl fill_step acc rows !! cur = Some zero_summary.
Proof.
  intros Hzero. revert acc.
  induction Hzero as [|[[c t] n] rows [Ht Hn] _ IH]; intros acc Hacc; [done|].
  simpl in *. subst t n. apply IH. intros cur.
  case_decide; [done|].
  destruct (decide (c = cur)) as [->|Hne].
  - right. apply lookup_insert_eq.
  - by rewrite lookup_insert_ne.
Qed.

Lemma Zsum_fmap_archived (f : totals_row → Z) chat_id date_str shift rows :
  (∀ r, f (archived chat_id date_str shift r) = f r) →
  Zsum (f <$> (archived chat_id date_str shift <$> rows)) = Zsum (f <$> rows).
Proof.
  intros Hf. rewrite <- list_fmap_compose. f_equal.
  apply list_fmap_ext. intros _ r _. simpl. apply Hf.
Qed.

Lemma py_or_Some (d y : string) : d ≠ "" → py_or (Some d) y = d.
Proof. intros Hd. unfold py_or. by rewrite decide_False. Qed.

(** After [move_to_old], the archive query of the date reports, for every
    currency, what it reported before plus what the totals query of the
    closed shift reported before. *)
Lemma archive_accumulates now chat_id date_str shift db cur :
  primary_key_ok (totals db) → date_str ≠ "" → shift ≠ "" →
  reported (get_old_totals now chat_id (Some date_str)
              (move_to_old chat_id shift date_str db)) cur =
    summary_add
      (reported (get_old_totals now chat_id (Some date_str) db) cur)
      (reported (get_totals now chat_id (Some date_str) (Some shift) db) cur).
Proof.
  intros Hpk Hd Hs. unfold get_old_totals, get_totals. cbv zeta.
  rewrite py_or_Some by done. rewrite (decide_False (P := shift = "")) by done.
  destruct (move_to_old_fields chat_id shift date_str db) as (_ & -> & _).
  rewrite !reported_group.
  rewrite reported_rows by by apply primary_key_currencies.
  case_decide; [done|].
  set (rows := filter (at_shift chat_id date_str shift) (totals db)).
  rewrite filter_app.
  assert (Harch : filter (at_date chat_id date_str)
                    (archived chat_id date_str shift <$> rows) =
                  archived chat_id date_str shift <$> rows).
  { rewrite (filter_fmap_comm _ (λ _, True)) by (intros; by split).
    f_equal. clear. induction rows as [|r rows IH]; [done|].
    rewrite filter_cons_True by done. by f_equal. }
  rewrite Harch, filter_app.
  rewrite (filter_fmap_comm _ (λ r, row_currency r = cur)) by done.
  rewrite !fmap_app, !Zsum_app.
  rewrite !Zsum_fmap_archived by done.
  reflexivity.
Qed.

Lemma Zsum_zero {A} (f : A → Z) (l : list A) :
  Forall (λ x, f x = 0) l → Zsum (f <$> l) = 0.
Proof.
  induction 1 as [|x l Hx _ IH]; [done|].
  rewrite fmap_cons. unfold Zsum in *. simpl. lia.
Qed.

(** Zero-valued rows of currencies already present change no answer of a
    GROUP BY currency query. *)
Lemma group_app_zero (rows zeros : list totals_row) :
  Forall (λ r, row_total r = 0 ∧ row_invoices r = 0) zeros →
  Forall (λ r, row_currency r ∈ row_currency <$> rows) zeros →
  fill_data (sql_group_currency (rows ++ zeros)) =
    fill_data (sql_group_currency rows).
Proof.
  intros Hzero Hcur. apply map_eq. intros cur.
  rewrite !fill_data_group_lookup. case_decide; [done|].
  rewrite filter_app, !fmap_app, !Zsum_app.
  rewrite (Zsum_zero row_total (filter (λ r, row_currency r = cur) zeros)),
    (Zsum_zero row_invoices (filter (λ r, row_currency r = cur) zeros)),
    !Z.add_0_r.
  - destruct (decide (cur ∈ row_currency <$> rows)) as [Hin|Hin].
    + rewrite decide_True; [done|]. apply elem_of_app. by left.
    + rewrite decide_False; [done|].
      intros [Hl|Hr]%elem_of_app; [done|].
      apply list_elem_of_fmap in Hr as (r & -> & Hr).
      rewrite Forall_forall in Hcur. by apply Hin, Hcur.
  - apply Forall_forall. intros r [_ Hr]%list_elem_of_filter.
    rewrite Forall_forall in Hzero. by apply Hzero.
  - apply Forall_forall. intros r [_ Hr]%list_elem_of_filter.
    rewrite Forall_forall in Hzero. by apply Hzero.
Qed.

(** C6 (amended). [move_to_old] appends one archive row for every totals
    row of (chat_id, date, shift), whatever its count, and changes nothing
    when there is no such row.  A second call in a row appends one
    zero-valued row for each of them, and every archive query still answers
    what it answered after the first call. *)
Theorem move_to_old_archives_every_row (chat_id : Z) (shift date_str : string)
    (db : database) :
  let rows := filter (at_shift chat_id date_str shift) (totals db) in
  let db1 := move_to_old chat_id shift date_str db in
  let db2 := move_to_old chat_id shift date_str db1 in
  old_totals db1 =
    old_totals db ++ (archived chat_id date_str shift <$> rows) ∧
  (rows ≠ [] ∨ db1 = db) ∧
  old_totals db2 =
    old_totals db1 ++ (archived chat_id date_str shift <$> (zeroed <$> rows)) ∧
  ∀ now chat_id' date_str',
    get_old_totals now chat_id' date_str' db2 =
    get_old_totals now chat_id' date_str' db1.
Proof.
  intros rows db1 db2.
  assert (Hold1 : old_totals db1 =
            old_totals db ++ (archived chat_id date_str shift <$> rows))
    by apply move_to_old_fields.
  assert (Hold2 : old_totals db2 =
            old_totals db1 ++
            (archived chat_id date_str shift <$> (zeroed <$> rows))).
  { unfold db2.
    destruct (move_to_old_fields chat_id shift date_str db1) as (_ & -> & _).
    unfold db1. by rewrite move_to_old_selected. }
  split; [exact Hold1|]. split.
  { unfold db1, move_to_old. fold rows. destruct rows; [by right|by left]. }
  split; [exact Hold2|].
  intros now chat_id' date_str'. unfold get_old_totals. cbv zeta.
  set (d' := py_or date_str' (get_today_str now)).
  rewrite Hold2, filter_app. apply group_app_zero.
  - apply Forall_forall. intros r [_ Hr]%list_elem_of_filter.
    apply list_elem_of_fmap in Hr as (r1 & -> & Hr1).
    apply list_elem_of_fmap in Hr1 as (r0 & -> & _). done.
  - apply Forall_forall. intros r [Hsel Hr]%list_elem_of_filter.
    apply list_elem_of_fmap in Hr as (r1 & -> & Hr1).
    apply list_elem_of_fmap in Hr1 as (r0 & -> & Hr0).
    apply list_elem_of_fmap. exists (archived chat_id date_str shift r0).
    split; [done|]. apply list_elem_of_filter. split; [exact Hsel|].
    rewrite Hold1. apply elem_of_app. right. by apply list_elem_of_fmap_2.
Qed.

(** C6, as stated, fails: one record in shift 1, the shift closed twice.
    The second call finds the zeroed row and archives it, with count 0. *)
Lemma second_close_appends_zero_row :
  old_totals db_shift1_closed =
    [mk_totals_row 1 "2024-01-01" "shift1" "USD" 800 2] ∧
  old_totals (move_to_old 1 "shift1" "2024-01-01" db_shift1_closed) =
    [mk_totals_row 1 "2024-01-01" "shift1" "USD" 800 2;
     mk_totals_row 1 "2024-01-01" "shift1" "USD" 0 0].
Proof. split; vm_compute; reflexivity. Qed.

(** The counts of [archive_accumulates]. *)
Lemma archive_counts now chat_id date_str shift db cur :
  primary_key_ok (totals db) → date_str ≠ "" → shift ≠ "" →
  s_invoices (reported (get_old_totals now chat_id (Some date_str)
                          (move_to_old chat_id shift date_str db)) cur) =
    s_invoices (reported (get_old_totals now chat_id (Some date_str) db) cur) +
    s_invoices
      (reported (get_totals now chat_id (Some date_str) (Some shift) db) cur).
Proof. intros Hpk Hd Hs. by rewrite archive_accumulates. Qed.

(** The rows the archive query of the date reads after a close: the archive
    rows of the date as they were, then the rows just moved. *)
Lemma archive_rows_after_close now chat_id date_str shift db :
  date_str ≠ "" →
  get_old_totals now chat_id (Some date_str)
    (move_to_old chat_id shift date_str db) =
  fill_data
    (sql_group_currency
       (filter (at_date chat_id date_str) (old_totals db) ++
        (archived chat_id date_str shift <$>
           filter (at_shift chat_id date_str shift) (totals db)))).
Proof.
  intros Hd. unfold get_old_totals. cbv zeta. rewrite py_or_Some by done.
  destruct (move_to_old_fields chat_id shift date_str db) as (_ & -> & _).
  rewrite filter_app. do 3 f_equal.
  rewrite (filter_fmap_comm _ (λ _, True)) by (intros; by split).
  f_equal.
  induction (filter (at_shift chat_id date_str shift) (totals db))
    as [|r rows IH]; [done|].
  rewrite filter_cons_True by done. by f_equal.
Qed.

(** A currency the archive of the date did not hold before the close: the
    archive query reports for it what the closed shift reported. *)
Lemma archive_snapshot now chat_id date_str shift db cur :
  primary_key_ok (totals db) → date_str ≠ "" → shift ≠ "" →
  (∀ r, r ∈ old_totals db → at_date chat_id date_str r →
        row_currency r ≠ cur) →
  reported (get_old_totals now chat_id (Some date_str)
              (move_to_old chat_id shift date_str db)) cur =
    reported (get_totals now chat_id (Some date_str) (Some shift) db) cur.
Proof.
  intros Hpk Hd Hs Hnone. rewrite archive_accumulates by done.
  assert (Hz : reported (get_old_totals now chat_id (Some date_str) db) cur =
               zero_summary).
  { unfold get_old_totals. cbv zeta. rewrite py_or_Some by done.
    rewrite reported_group. case_decide; [done|].
    destruct (filter (λ r, row_currency r = cur)
                (filter (at_date chat_id date_str) (old_totals db)))
      as [|r l] eqn:Hf; [done|]. exfalso.
    assert (Hr : r ∈ filter (λ r, row_currency r = cur)
                       (filter (at_date chat_id date_str) (old_totals db)))
      by (rewrite Hf; by left).
    apply list_elem_of_filter in Hr as [Hc Hr].
    apply list_elem_of_filter in Hr as [Hat Hr].
    by apply (Hnone r). }
  rewrite Hz.
  destruct (reported (get_totals _ _ _ _ _) cur).
  unfold summary_add, zero_summary. simpl. f_equal.
Qed.

(** C7 (amended). The "New Data" branch archives the current shift and
    answers with the archive query of the business date, which reads every
    archive row of that date, those of all shifts and all earlier closings,
    and then the rows this call moved.  For every currency its count is the
    former count of the archive query plus the count this call moved; for a
    currency the archive of the date did not hold before, it reports what
    the closed shift reported. *)
Theorem new_data_reports_archive_of_date (now now' : datetime) (chat_id : Z)
    (db : database) (shift biz : string) :
  primary_key_ok (totals db) →
  get_shift_and_business_date now = Some (shift, biz) →
  let db' := move_to_old chat_id shift biz db in
  handle_message_new_data now now' chat_id db =
    Some (db', get_old_totals now' chat_id (Some biz) db') ∧
  get_old_totals now' chat_id (Some biz) db' =
    fill_data
      (sql_group_currency
         (filter (at_date chat_id biz) (old_totals db) ++
          (archived chat_id biz shift <$>
             filter (at_shift chat_id biz shift) (totals db)))) ∧
  (∀ cur,
     s_invoices (reported (get_old_totals now' chat_id (Some biz) db') cur) =
       s_invoices (reported (get_old_totals now' chat_id (Some biz) db) cur) +
       s_invoices
         (reported (get_totals now' chat_id (Some biz) (Some shift) db) cur)) ∧
  ∀ cur,
    (∀ r, r ∈ old_totals db → at_date chat_id biz r → row_currency r ≠ cur) →
    reported (get_old_totals now' chat_id (Some biz) db') cur =
      reported (get_totals now' chat_id (Some biz) (Some shift) db) cur.
Proof.
  intros Hpk Hc db'.
  destruct (get_shift_and_business_date_nonempty _ _ _ Hc) as [Hs Hd].
  split; [|split; [|split]].
  - unfold handle_message_new_data. by rewrite Hc.
  - by apply archive_rows_after_close.
  - intros cur. by apply archive_counts.
  - intros cur Hnone. by apply archive_snapshot.
Qed.

Lemma new_data_reports_archive_of_date_witness :
  (λ r, s_invoices (reported r.2 "USD")) <$>
    handle_message_new_data (at_clock 2024 1 1 19 30 0 0) (at_clock 2024 1 1 19 30 1 0)
      1 db_second_shift =
    Some 3.
Proof.
  assert (Hpk : primary_key_ok (totals db_second_shift))
    by (unfold primary_key_ok; apply (bool_decide_unpack _); vm_compute; exact I).
  assert (Hc : get_shift_and_business_date (at_clock 2024 1 1 19 30 0 0) =
               Some ("shift2", "2024-01-01")) by reflexivity.
  destruct (new_data_reports_archive_of_date (at_clock 2024 1 1 19 30 0 0)
              (at_clock 2024 1 1 19 30 1 0) 1 db_second_shift
              "shift2" "2024-01-01" Hpk Hc) as (-> & _ & Hcount & _).
  simpl. rewrite Hcount. vm_compute. reflexivity.
Defined.

(** C7, as stated, fails: shift 1 was closed with 800 in 2 invoices, shift 2
    holds 300 in 1 invoice; closing shift 2 moves that one row, and the
    answer is 1100 in 3 invoices. *)
Lemma new_data_reports_accumulation :
  (archived 1 "2024-01-01" "shift2" <$>
     filter (at_shift 1 "2024-01-01" "shift2") (totals db_second_shift)) =
    [mk_totals_row 1 "2024-01-01" "shift2" "USD" 300 1] ∧
  (λ r, r.2 !! "USD") <$>
    handle_message_new_data (at_clock 2024 1 1 19 30 0 0) (at_clock 2024 1 1 19 30 1 0)
      1 db_second_shift =
    Some (Some (mk_summary 1100 3)).
Proof. split; vm_compute; reflexivity. Qed.

(** C8 (amended). After [move_to_old] the totals query of the closed shift
    holds USD and KHR and nothing but zeros; every totals row of the shift
    has been appended to the archive; the archive query of the date counts,
    for every currency, its former count plus the count of the closed shift;
    and for a currency the archive of the date did not hold before, it
    reports the total and the count the shift had before the close. *)
Theorem close_shift_then_totals (now : datetime) (chat_id : Z)
    (date_str shift : string) (db : database) :
  primary_key_ok (totals db) → date_str ≠ "" → shift ≠ "" →
  let db' := move_to_old chat_id shift date_str db in
  let after := get_totals now chat_id (Some date_str) (Some shift) db' in
  after !! "USD" = Some zero_summary ∧
  after !! "KHR" = Some zero_summary ∧
  (∀ cur, after !! cur = None ∨ after !! cur = Some zero_summary) ∧
  old_totals db' =
    old_totals db ++
    (archived chat_id date_str shift <$>
       filter (at_shift chat_id date_str shift) (totals db)) ∧
  (∀ cur,
     s_invoices (reported (get_old_totals now chat_id (Some date_str) db') cur) =
       s_invoices (reported (get_old_totals now chat_id (Some date_str) db) cur) +
       s_invoices
         (reported (get_totals now chat_id (Some date_str) (Some shift) db) cur)) ∧
  ∀ cur,
    (∀ r, r ∈ old_totals db → at_date chat_id date_str r →
          row_currency r ≠ cur) →
    reported (get_old_totals now chat_id (Some date_str) db') cur =
      reported (get_totals now chat_id (Some date_str) (Some shift) db) cur.
Proof.
  intros Hpk Hd Hs db' after.
  assert (Hz : ∀ cur, after !! cur = base_data !! cur ∨
                      after !! cur = Some zero_summary).
  { unfold after, get_totals, db'. cbv zeta.
    rewrite py_or_Some by done. rewrite (decide_False (P := shift = "")) by done.
    rewrite move_to_old_selected. apply fill_step_zero; [|by left].
    apply Forall_forall. intros row Hrow.
    apply list_elem_of_fmap in Hrow as (r1 & -> & Hr1).
    apply list_elem_of_fmap in Hr1 as (r0 & -> & _). done. }
  split; [by destruct (Hz "USD") as [-> | ->]|].
  split; [by destruct (Hz "KHR") as [-> | ->]|].
  split; [|split; [|split]].
  - intros cur. destruct (Hz cur) as [-> | ->]; [|by right].
    apply base_data_lookup.
  - apply move_to_old_fields.
  - intros cur. by apply archive_counts.
  - intros cur Hnone. by apply archive_snapshot.
Qed.

Lemma close_shift_then_totals_witness :
  get_totals (at_clock 2024 1 1 7 45 0 0) 1 (Some "2024-01-01") (Some "shift1")
    db_shift1_closed !! "USD" = Some zero_summary ∧
  reported (get_old_totals (at_clock 2024 1 1 7 45 0 0) 1 (Some "2024-01-01")
              db_shift1_closed) "USD" = mk_summary 800 2.
Proof.
  assert (Hpk : primary_key_ok (totals db_two_records))
    by (unfold primary_key_ok; apply (bool_decide_unpack _); vm_compute; exact I).
  assert (Hd : "2024-01-01" ≠ "") by discriminate.
  assert (Hs : "shift1" ≠ "") by discriminate.
  destruct (close_shift_then_totals (at_clock 2024 1 1 7 45 0 0) 1
              "2024-01-01" "shift1" db_two_records Hpk Hd Hs)
    as (Husd & _ & _ & _ & _ & Hsnap).
  split; [exact Husd|].
  unfold db_shift1_closed. rewrite Hsnap; [vm_compute; reflexivity|].
  intros r Hr. change (old_totals db_two_records) with (@nil totals_row) in Hr.
  by apply elem_of_nil in Hr.
Defined.

(** ** The stored timestamp *)

(** C9. A record at 18:00:00.5: the ledger row carries the timestamp
    "2024-01-01 18:00:00" and shift3, while the classifier answers shift1
    for 18:00:00, the moment that timestamp denotes. *)
Theorem ledger_entry_at_half_second :
  history <$> update_total (at_clock 2024 1 1 18 0 0 500000) 1 "USD" 500 empty_db =
    Some [mk_history_row 1 1 "2024-01-01 18:00:00" "2024-01-01" "shift3"
            "USD" 500] ∧
  strftime_datetime (at_clock 2024 1 1 18 0 0 0) = "2024-01-01 18:00:00" ∧
  get_shift_and_business_date (at_clock 2024 1 1 18 0 0 0) =
    Some ("shift1", "2024-01-01").
Proof. repeat split; vm_compute; reflexivity. Qed.

(** On whole seconds the timestamp text determines the reading, and every
    ledger entry carries the classification of its timestamp. *)
Lemma strftime_datetime_inj now1 now2 :
  whole_second now1 → whole_second now2 →
  strftime_datetime now1 = strftime_datetime now2 → now1 = now2.
Proof.
  intros (Hd1 & Ht1 & Hu1) (Hd2 & Ht2 & Hu2) E.
  destruct now1 as [d1 [h1 m1 s1 u1]], now2 as [d2 [h2 m2 s2 u2]].
  unfold valid_time in *. simpl in *.
  unfold strftime_datetime, strftime_date, pad4, pad2 in E. simpl in E.
  injection E as E1 E2 E3 E4 E5 E6 E7 E8 E9 E10 E11 E12 E13 E14.
  assert (Ed : strftime_date d1 = strftime_date d2)
    by (unfold strftime_date, pad4, pad2; simpl; congruence).
  assert (Eh : pad2 h1 = pad2 h2) by (unfold pad2; congruence).
  assert (Em : pad2 m1 = pad2 m2) by (unfold pad2; congruence).
  assert (Es : pad2 s1 = pad2 s2) by (unfold pad2; congruence).
  apply strftime_date_inj in Ed; [|done..].
  apply pad2_inj in Eh; [|lia..].
  apply pad2_inj in Em; [|lia..].
  apply pad2_inj in Es; [|lia..].
  congruence.
Qed.

Lemma update_total_history now_dt chat_id currency amount db db' :
  update_total now_dt chat_id currency amount db = Some db' →
  ∃ sh biz,
    get_shift_and_business_date now_dt = Some (sh, biz) ∧
    history db' =
      history db ++
      [mk_history_row (next_id (history db)) chat_id
         (strftime_datetime now_dt) biz sh currency amount].
Proof.
  unfold update_total.
  destruct (get_shift_and_business_date now_dt) as [[sh biz]|]; simpl;
    [|discriminate].
  intros [= <-]. by exists sh, biz.
Qed.

Lemma ledger_classified_on_whole_seconds calls db :
  Forall (λ c, whole_second (rc_now c)) calls →
  Forall classified_as_stored (history db) →
  Forall classified_as_stored (history (run_updates calls db)).
Proof.
  unfold run_updates. intros Hcalls. revert db.
  induction Hcalls as [|c calls Hc _ IH]; intros db Hdb; [done|]. simpl.
  apply IH.
  destruct (update_total (rc_now c) (rc_chat_id c) (rc_currency c)
              (rc_amount c) db) as [db'|] eqn:Hup; simpl; [|done].
  apply update_total_history in Hup as (sh & biz & Hcl & ->).
  apply Forall_app. split; [done|]. apply Forall_singleton.
  intros now Hnow Htext. simpl in *.
  by rewrite (strftime_datetime_inj now (rc_now c) Hnow Hc Htext).
Qed.

(** ** More on the classifier *)

Lemma taken_branch_spec t :
  match taken_branch t with
  | Shift1Window => time_le SHIFT1_START t ∧ time_le t SHIFT1_END
  | Shift2Window => time_le SHIFT2_START t ∧ time_le t SHIFT2_END
  | Shift3Evening => time_lt SHIFT2_END t
  | Shift3AfterMidnight => time_lt t SHIFT1_START
  | Fallback => time_lt SHIFT1_END t ∧ time_lt t SHIFT2_START
  end.
Proof.
  unfold taken_branch. repeat case_decide;
    unfold SHIFT1_START, SHIFT1_END, SHIFT2_START, SHIFT2_END, SHIFT3_START,
      SHIFT3_END, time_le, time_lt in *; simpl in *; lia.
Qed.


(** X1. The five returns split the day into five stretches: before 06:00:00
    shift3 of the previous day, 06:00:00 to 18:00:00 shift1, strictly between
    18:00:00 and 18:01:00 the fallback (shift3), 18:01:00 to 22:00:00 shift2,
    and only after 22:00:00 the evening shift3: the 20:01:00 of SHIFT3_START
    never decides. *)
Theorem classifier_partition (now_dt : datetime) :
  let t := dt_time now_dt in
  let today := strftime_date (dt_date now_dt) in
  (time_lt t SHIFT1_START ∧
   get_shift_and_business_date now_dt =
     (λ biz, ("shift3", strftime_date biz)) <$>
       date_minus_one_day (dt_date now_dt)) ∨
  (time_le SHIFT1_START t ∧ time_le t SHIFT1_END ∧
   get_shift_and_business_date now_dt = Some ("shift1", today)) ∨
  (time_lt SHIFT1_END t ∧ time_lt t SHIFT2_START ∧
   taken_branch t = Fallback ∧
   get_shift_and_business_date now_dt = Some ("shift3", today)) ∨
  (time_le SHIFT2_START t ∧ time_le t SHIFT2_END ∧
   get_shift_and_business_date now_dt = Some ("shift2", today)) ∨
  (time_lt SHIFT2_END t ∧ taken_branch t = Shift3Evening ∧
   get_shift_and_business_date now_dt = Some ("shift3", today)).
Proof.
  intros t today. unfold get_shift_and_business_date. fold t.
  pose proof (taken_branch_spec t) as Hs.
  destruct (taken_branch t).
  - right; left. tauto.
  - right; right; right; left. tauto.
  - right; right; right; right. tauto.
  - left. split; [done|]. by destruct (date_minus_one_day (dt_date now_dt)).
  - right; right; left. tauto.
Qed.

Lemma shift_names_elem :
  "shift1" ∈ shift_names ∧ "shift2" ∈ shift_names ∧ "shift3" ∈ shift_names.
Proof. unfold shift_names. repeat split; repeat constructor. Qed.

(** X2. On a date of the calendar the classifier raises in one case only,
    before 06:00:00 on 0001-01-01; whenever it answers, the shift is one of
    shift1, shift2, shift3 and the business date is the text of the calendar
    date or of the day before. *)
Theorem classifier_answers (now_dt : datetime) :
  valid_date (dt_date now_dt) →
  (get_shift_and_business_date now_dt = None ↔
     time_lt (dt_time now_dt) SHIFT1_START ∧ dt_date now_dt = date_min) ∧
  ∀ sh d,
    get_shift_and_business_date now_dt = Some (sh, d) →
    sh ∈ shift_names ∧ d ≠ "" ∧
    ∃ biz, valid_date biz ∧ d = strftime_date biz ∧
           (biz = dt_date now_dt ∨
            toordinal biz = toordinal (dt_date now_dt) - 1).
Proof.
  intros Hv. unfold get_shift_and_business_date.
  pose proof (taken_branch_spec (dt_time now_dt)) as Hspec.
  assert (Hday : time_le SHIFT1_START (dt_time now_dt) ∨
                 time_lt SHIFT1_END (dt_time now_dt) ∨
                 time_le SHIFT2_START (dt_time now_dt) ∨
                 time_lt SHIFT2_END (dt_time now_dt) →
                 ¬ time_lt (dt_time now_dt) SHIFT1_START).
  { unfold SHIFT1_START, SHIFT1_END, SHIFT2_START, SHIFT2_END,
      time_lt, time_le. simpl. lia. }
  assert (Htoday : ∀ name sh d, name ∈ shift_names →
            Some (name, strftime_date (dt_date now_dt)) = Some (sh, d) →
            sh ∈ shift_names ∧ d ≠ "" ∧
            ∃ biz, valid_date biz ∧ d = strftime_date biz ∧
                   (biz = dt_date now_dt ∨
                    toordinal biz = toordinal (dt_date now_dt) - 1)).
  { intros name sh d Hname [= <- <-]. split; [done|].
    split; [apply strftime_date_nonempty|]. exists (dt_date now_dt). auto. }
  destruct shift_names_elem as (Hn1 & Hn2 & Hn3).
  destruct (taken_branch (dt_time now_dt)); simpl in *.
  - split; [|intros sh d; by apply Htoday].
    split; [discriminate|]. intros [Hlt _]. destruct Hday; [|done].
    left. apply Hspec.
  - split; [|intros sh d; by apply Htoday].
    split; [discriminate|]. intros [Hlt _]. destruct Hday; [|done].
    right; right; left. apply Hspec.
  - split; [|intros sh d; by apply Htoday].
    split; [discriminate|]. intros [Hlt _]. destruct Hday; [|done].
    right; right; right. apply Hspec.
  - destruct (date_minus_one_day (dt_date now_dt)) as [biz|] eqn:Hb; simpl.
    + split.
      * split; [discriminate|]. intros [_ Hmin]. rewrite Hmin in Hb.
        discriminate.
      * intros sh d [= <- <-]. split; [done|].
        split; [apply strftime_date_nonempty|].
        exists biz. split; [by eapply date_minus_one_day_valid|].
        split; [done|]. right. by apply date_minus_one_day_ordinal.
    + split; [|discriminate]. split; [|done]. intros _. split; [done|].
      destruct (decide (dt_date now_dt = date_min)) as [|Hne]; [done|].
      destruct (date_minus_one_day_Some _ Hv Hne) as [biz Hbiz]. congruence.
  - split; [|intros sh d; by apply Htoday].
    split; [discriminate|]. intros [Hlt _]. destruct Hday; [|done].
    right; left. apply Hspec.
Qed.

Lemma classifier_answers_witness :
  (get_shift_and_business_date (at_clock 2024 3 1 1 0 0 0) = None ↔
     time_lt (dt_time (at_clock 2024 3 1 1 0 0 0)) SHIFT1_START ∧
     dt_date (at_clock 2024 3 1 1 0 0 0) = date_min) ∧
  ∀ sh d,
    get_shift_and_business_date (at_clock 2024 3 1 1 0 0 0) = Some (sh, d) →
    sh ∈ shift_names ∧ d ≠ "" ∧
    ∃ biz, valid_date biz ∧ d = strftime_date biz ∧
           (biz = dt_date (at_clock 2024 3 1 1 0 0 0) ∨
            toordinal biz = toordinal (dt_date (at_clock 2024 3 1 1 0 0 0)) - 1).
Proof.
  apply (classifier_answers (at_clock 2024 3 1 1 0 0 0)).
  unfold valid_date; cbn; lia.
Defined.

(** ** The dictionary of a query, continued *)

Lemma fill_step_keeps rows acc c :
  is_Some (acc !! c) → is_Some (foldl fill_step acc rows !! c).
Proof.
  revert acc. induction rows as [|[[cur t] n] rows IH]; intros acc Hc; [done|].
  simpl. apply IH. case_decide; [done|].
  destruct (decide (cur = c)) as [->|Hne].
  - rewrite lookup_insert_eq. eauto.
  - by rewrite lookup_insert_ne.
Qed.

Lemma fill_step_keys rows acc c :
  is_Some (foldl fill_step acc rows !! c) →
  is_Some (acc !! c) ∨ c ∈ (λ row : string * Z * Z, row.1.1) <$> rows.
Proof.
  revert acc. induction rows as [|[[cur t] n] rows IH]; intros acc Hc;
    [by left|].
  simpl in Hc. apply IH in Hc as [Hc|Hc].
  - case_decide; [by left|].
    destruct (decide (cur = c)) as [->|Hne].
    + right. rewrite fmap_cons. by left.
    + rewrite lookup_insert_ne in Hc by done. by left.
  - right. rewrite fmap_cons. by right.
Qed.

Lemma base_data_keys c :
  is_Some (base_data !! c) ↔ c = "USD" ∨ c = "KHR".
Proof.
  unfold base_data. split.
  - intros Hc. destruct (decide ("KHR" = c)) as [<-|]; [by right|].
    rewrite lookup_insert_ne in Hc by done.
    destruct (decide ("USD" = c)) as [<-|]; [by left|].
    rewrite lookup_insert_ne in Hc by done.
    rewrite lookup_empty in Hc. by destruct Hc.
  - intros [-> | ->].
    + rewrite lookup_insert_ne by done. rewrite lookup_insert_eq. eauto.
    + rewrite lookup_insert_eq. eauto.
Qed.

Lemma fill_data_shape rows :
  is_Some (fill_data rows !! "USD") ∧ is_Some (fill_data rows !! "KHR") ∧
  fill_data rows !! "" = None.
Proof.
  unfold fill_data. split; [|split].
  - apply fill_step_keeps, base_data_keys. by left.
  - apply fill_step_keeps, base_data_keys. by right.
  - by rewrite fill_step_empty_key.
Qed.

(** X3. Whatever the database and the arguments, the dictionaries of
    [get_totals] and [get_old_totals] hold USD and KHR, never the empty
    currency, and beyond USD and KHR only currencies of rows of the table
    they read. *)
Theorem query_dictionary_shape (now : datetime) (chat_id : Z)
    (date_str shift : option string) (db : database) :
  let t := get_totals now chat_id date_str shift db in
  let o := get_old_totals now chat_id date_str db in
  (is_Some (t !! "USD") ∧ is_Some (t !! "KHR") ∧ t !! "" = None) ∧
  (is_Some (o !! "USD") ∧ is_Some (o !! "KHR") ∧ o !! "" = None) ∧
  (∀ c, is_Some (t !! c) →
        c = "USD" ∨ c = "KHR" ∨ c ∈ row_currency <$> totals db) ∧
  (∀ c, is_Some (o !! c) →
        c = "USD" ∨ c = "KHR" ∨ c ∈ row_currency <$> old_totals db).
Proof.
  intros t o.
  assert (Hgroup : ∀ (P : totals_row → Prop) `{!∀ r, Decision (P r)} rows c,
    is_Some (fill_data (sql_group_currency (filter P rows)) !! c) →
    c = "USD" ∨ c = "KHR" ∨ c ∈ row_currency <$> rows).
  { intros P ? rows c Hc. apply fill_step_keys in Hc as [Hc|Hc].
    - apply base_data_keys in Hc. tauto.
    - right; right. unfold sql_group_currency in Hc.
      rewrite <- list_fmap_compose in Hc.
      apply list_elem_of_fmap in Hc as (c' & -> & Hc'). simpl.
      apply elem_of_remove_dups, list_elem_of_fmap in Hc' as (r & -> & Hr).
      apply list_elem_of_filter in Hr as [_ Hr].
      by apply list_elem_of_fmap_2. }
  split; [apply fill_data_shape|]. split; [apply fill_data_shape|]. split.
  - intros c Hc. unfold t, get_totals in Hc. cbv zeta in Hc.
    destruct shift as [sh|]; [|by eapply Hgroup].
    destruct (decide (sh = "")); [by eapply Hgroup|].
    apply fill_step_keys in Hc as [Hc|Hc].
    + apply base_data_keys in Hc. tauto.
    + right; right. rewrite <- list_fmap_compose in Hc.
      apply list_elem_of_fmap in Hc as (r & -> & Hr). simpl.
      apply list_elem_of_filter in Hr as [_ Hr].
      by apply list_elem_of_fmap_2.
  - intros c Hc. by eapply Hgroup.
Qed.

(** ** Invariants of the four writers *)

(** What a successful [update_total] did. *)
Lemma update_total_inv now_dt chat_id currency amount db db' :
  update_total now_dt chat_id currency amount db = Some db' →
  ∃ sh biz,
    get_shift_and_business_date now_dt = Some (sh, biz) ∧
    old_totals db' = old_totals db ∧
    history db' =
      history db ++
      [mk_history_row (next_id (history db)) chat_id
         (strftime_datetime now_dt) biz sh currency amount] ∧
    match head (filter (λ r, row_key r = (chat_id, biz, sh, currency))
                  (totals db)) with
    | Some r =>
        totals db' =
          sql_update (λ r', row_key r' = (chat_id, biz, sh, currency))
            (λ r', mk_totals_row (row_chat_id r') (row_date r') (row_shift r')
                     (row_currency r') (row_total r + amount)
                     (row_invoices r + 1))
            (totals db)
    | None =>
        totals db' =
          totals db ++ [mk_totals_row chat_id biz sh currency amount 1]
    end.
Proof.
  unfold update_total.
  destruct (get_shift_and_business_date now_dt) as [[sh biz]|]; simpl;
    [|discriminate].
  intros [= <-]. exists sh, biz. simpl.
  split; [done|]. split; [done|]. split; [done|].
  by destruct (head _).
Qed.

Lemma update_total_primary_key now_dt chat_id currency amount db db' :
  update_total now_dt chat_id currency amount db = Some db' →
  primary_key_ok (totals db) → primary_key_ok (totals db').
Proof.
  intros (sh & biz & _ & _ & _ & Ht)%update_total_inv Hpk.
  unfold primary_key_ok in *.
  destruct (head _) as [r|] eqn:Hhead; rewrite Ht.
  - by rewrite sql_update_keys.
  - apply head_None in Hhead. rewrite fmap_app. apply NoDup_app.
    split; [done|]. split; [|apply NoDup_singleton].
    intros k Hin Hk. apply list_elem_of_singleton in Hk. simpl in Hk.
    apply list_elem_of_fmap in Hin as (r & -> & Hr).
    by eapply (filter_nil_not_elem_of _ _ r Hhead).
Qed.

Lemma apply_op_primary_key o db :
  primary_key_ok (totals db) → primary_key_ok (totals (apply_op db o)).
Proof.
  intros Hpk. destruct o as [c|a s d|a d|]; simpl.
  - destruct (update_total _ _ _ _ db) as [db'|] eqn:Hup; simpl; [|done].
    by eapply update_total_primary_key.
  - by apply move_to_old_primary_key.
  - unfold primary_key_ok. by rewrite sql_update_keys.
  - apply recalc_consistent.
Qed.

Lemma run_ops_primary_key ops db :
  primary_key_ok (totals db) → primary_key_ok (totals (run_ops ops db)).
Proof.
  unfold run_ops. revert db.
  induction ops as [|o ops IH]; intros db Hpk; [done|]. simpl.
  by apply IH, apply_op_primary_key.
Qed.

(** X4. From a database that satisfies the primary key of [totals], every
    sequence of [update_total], [move_to_old], reset and recomputation leaves
    one that satisfies it: the plain INSERT of [update_total] never meets an
    existing key. *)
Theorem operations_keep_primary_key (ops : list op) (db : database) :
  primary_key_ok (totals db) →
  primary_key_ok (totals (run_ops ops db)) ∧
  ∀ c db',
    update_total (rc_now c) (rc_chat_id c) (rc_currency c) (rc_amount c)
      (run_ops ops db) = Some db' →
    primary_key_ok (totals db').
Proof.
  intros Hpk. split; [by apply run_ops_primary_key|].
  intros c db' Hup. eapply update_total_primary_key; [exact Hup|].
  by apply run_ops_primary_key.
Qed.

Lemma operations_keep_primary_key_witness :
  primary_key_ok (totals (run_ops ops_example empty_db)).
Proof.
  apply (operations_keep_primary_key ops_example empty_db).
  unfold primary_key_ok. apply (bool_decide_unpack _). vm_compute. exact I.
Defined.

Lemma get_shift_in_names now_dt sh d :
  get_shift_and_business_date now_dt = Some (sh, d) →
  sh ∈ shift_names ∧ d ≠ "".
Proof.
  intros Hc. split; [|by eapply get_shift_and_business_date_nonempty].
  destruct shift_names_elem as (H1 & H2 & H3).
  unfold get_shift_and_business_date in Hc.
  destruct (taken_branch (dt_time now_dt)); simpl in Hc;
    try (injection Hc as <- _; done).
  destruct (date_minus_one_day (dt_date now_dt)); simpl in Hc; [|done].
  by injection Hc as <- _.
Qed.

Lemma Forall_sql_update (Q : totals_row → Prop) (sel : totals_row → Prop)
    `{!∀ r, Decision (sel r)} (set : totals_row → totals_row) t :
  (∀ r, Q r → sel r → Q (set r)) →
  Forall Q t → Forall Q (sql_update sel set t).
Proof.
  intros Hset Ht. unfold sql_update. apply Forall_fmap.
  eapply Forall_impl; [exact Ht|]. intros r Hr. simpl. case_decide; auto.
Qed.

Lemma zeroed_ok r : row_ok r → row_ok (zeroed r).
Proof. intros (? & ? & ?). unfold row_ok. simpl. repeat split; (done || lia). Qed.

(** The rows and entries stay well formed under each writer. *)
Lemma apply_op_rows_ok o db :
  Forall row_ok (totals db) → Forall row_ok (old_totals db) →
  Forall entry_ok (history db) →
  Forall row_ok (totals (apply_op db o)) ∧
  Forall row_ok (old_totals (apply_op db o)) ∧
  Forall entry_ok (history (apply_op db o)).
Proof.
  intros Ht Ho Hh. destruct o as [c|a s d|a d|].
  - simpl. destruct (update_total _ _ _ _ db) as [db'|] eqn:Hup; simpl; [|done].
    apply update_total_inv in Hup as (sh & biz & Hc & -> & -> & Htot).
    apply get_shift_in_names in Hc as [Hsh Hbiz].
    split; [|split; [done|]].
    + destruct (head _) as [r|] eqn:Hhead; rewrite Htot.
      * apply head_Some_elem_of, list_elem_of_filter in Hhead as [_ Hr].
        rewrite Forall_forall in Ht. destruct (Ht r Hr) as (_ & _ & Hn).
        apply Forall_sql_update; [|by apply Forall_forall].
        intros r' (? & ? & ?) _. unfold row_ok. simpl.
        repeat split; (done || lia).
      * apply Forall_app. split; [done|]. apply Forall_singleton.
        unfold row_ok. simpl. repeat split; (done || lia).
    + apply Forall_app. split; [done|]. by apply Forall_singleton.
  - simpl. destruct (move_to_old_fields a s d db) as (-> & -> & ->).
    split; [|split; [|done]].
    + apply Forall_sql_update; [|done]. intros r Hr _. by apply zeroed_ok.
    + apply Forall_app. split; [done|]. apply Forall_fmap, Forall_forall.
      intros r [(_ & Hd & Hs) Hr]%list_elem_of_filter.
      rewrite Forall_forall in Ht. destruct (Ht r Hr) as (? & ? & ?).
      unfold row_ok. simpl. by rewrite <- Hd, <- Hs.
  - simpl. split; [|done].
    apply Forall_sql_update; [|done]. intros r Hr _. by apply zeroed_ok.
  - change (apply_op db OpRecalc) with (recalc_totals_from_history db).
    split; [|done]. rewrite recalc_totals. unfold sql_group_history.
    apply Forall_fmap, Forall_forall. intros k Hk.
    apply elem_of_remove_dups, list_elem_of_fmap in Hk as (e & -> & He).
    rewrite Forall_forall in Hh. destruct (Hh e He) as [Hs Hd].
    unfold row_ok, h_key. simpl. repeat split; (done || lia).
Qed.

Lemma rows_ok_after_operations ops :
  Forall row_ok (totals (run_ops ops empty_db)) ∧
  Forall row_ok (old_totals (run_ops ops empty_db)) ∧
  Forall entry_ok (history (run_ops ops empty_db)).
Proof.
  assert (H : ∀ db,
    Forall row_ok (totals db) ∧ Forall row_ok (old_totals db) ∧
    Forall entry_ok (history db) →
    Forall row_ok (totals (run_ops ops db)) ∧
    Forall row_ok (old_totals (run_ops ops db)) ∧
    Forall entry_ok (history (run_ops ops db))).
  { unfold run_ops. induction ops as [|o ops IH]; intros db Hdb; [done|].
    simpl. apply IH. destruct Hdb as (? & ? & ?). by apply apply_op_rows_ok. }
  apply H. by repeat split.
Qed.

(** X5. After any sequence of the four writers on the empty database, every
    row of [totals] and of [old_totals] and every ledger entry carries one of
    the shift names shift1, shift2, shift3 and a non-empty date, and no
    count in [totals] or [old_totals] is negative. *)
Theorem operations_keep_rows_ok (ops : list op) :
  let db := run_ops ops empty_db in
  Forall row_ok (totals db) ∧ Forall row_ok (old_totals db) ∧
  Forall entry_ok (history db).
Proof. intros db. apply rows_ok_after_operations. Qed.

Lemma apply_op_append_only o db :
  history db `prefix_of` history (apply_op db o) ∧
  old_totals db `prefix_of` old_totals (apply_op db o).
Proof.
  destruct o as [c|a s d|a d|]; simpl; [| |done..].
  - destruct (update_total _ _ _ _ db) as [db'|] eqn:Hup; simpl; [|done].
    apply update_total_inv in Hup as (sh & biz & _ & -> & -> & _).
    split; [apply prefix_app_r|]; done.
  - destruct (move_to_old_fields a s d db) as (_ & -> & ->).
    split; [done|]. by apply prefix_app_r.
Qed.

(** X6. The ledger and the archive are append-only: whatever the sequence
    of writers, the ledger and the archive it started from are prefixes of
    the ones it ends with; only [update_total] extends the ledger, by one
    entry, and only [move_to_old] extends the archive. *)
Theorem ledger_and_archive_append_only (ops : list op) (db : database) :
  (history db `prefix_of` history (run_ops ops db) ∧
   old_totals db `prefix_of` old_totals (run_ops ops db)) ∧
  ∀ o,
    (length (history (apply_op db o)) ≤ S (length (history db)))%nat ∧
    match o with
    | OpUpdate _ => old_totals (apply_op db o) = old_totals db
    | OpMoveToOld _ _ _ => history (apply_op db o) = history db
    | OpReset _ _ | OpRecalc =>
        history (apply_op db o) = history db ∧
        old_totals (apply_op db o) = old_totals db
    end.
Proof.
  split.
  - unfold run_ops. revert db.
    induction ops as [|o ops IH]; intros db; [done|]. simpl.
    destruct (apply_op_append_only o db) as [Hh Ho].
    destruct (IH (apply_op db o)) as [Hh' Ho'].
    split; etrans; done.
  - intros o. destruct o as [c|a s d|a d|]; simpl.
    + destruct (update_total _ _ _ _ db) as [db'|] eqn:Hup; simpl;
        [|split; [lia|done]].
      apply update_total_inv in Hup as (sh & biz & _ & -> & -> & _).
      rewrite length_app. simpl. split; [lia|done].
    + destruct (move_to_old_fields a s d db) as (_ & _ & ->).
      split; [lia|done].
    + split; [lia|done].
    + split; [lia|done].
Qed.

(** ** Sums over keys *)

Ltac summary_eq :=
  unfold summary_add, zero_summary, total_where, ledger_where; simpl;
  f_equal; lia.

Lemma summary_add_zero_r a : summary_add a zero_summary = a.
Proof. destruct a. summary_eq. Qed.

Lemma total_where_cons P r t :
  total_where P (r :: t) =
    if P (row_key r)
    then summary_add (mk_summary (row_total r) (row_invoices r))
           (total_where P t)
    else total_where P t.
Proof.
  unfold total_where. destruct (P (row_key r)) eqn:HP.
  - rewrite filter_cons_True by (by rewrite HP). reflexivity.
  - rewrite filter_cons_False by (rewrite HP; simpl; tauto). reflexivity.
Qed.

Lemma total_where_app P t t' :
  total_where P (t ++ t') =
    summary_add (total_where P t) (total_where P t').
Proof.
  unfold total_where, summary_add. simpl.
  by rewrite filter_app, !fmap_app, !Zsum_app.
Qed.

Lemma ledger_where_cons P e h :
  ledger_where P (e :: h) =
    if P (h_key e)
    then summary_add (mk_summary (h_amount e) 1) (ledger_where P h)
    else ledger_where P h.
Proof.
  unfold ledger_where. destruct (P (h_key e)) eqn:HP.
  - rewrite filter_cons_True by (by rewrite HP).
    unfold summary_add. simpl. f_equal. lia.
  - rewrite filter_cons_False by (rewrite HP; simpl; tauto). reflexivity.
Qed.

Lemma ledger_where_snoc P h e :
  ledger_where P (h ++ [e]) =
    summary_add (ledger_where P h)
      (if P (h_key e) then mk_summary (h_amount e) 1 else zero_summary).
Proof.
  induction h as [|e' h IH].
  - simpl. rewrite ledger_where_cons. destruct (P (h_key e)); summary_eq.
  - rewrite <- app_comm_cons, !ledger_where_cons, IH.
    destruct (P (h_key e')), (P (h_key e)); summary_eq.
Qed.

(** The UPDATE of [update_total] under the primary key: the one row of the
    key gains the amount and one invoice. *)
Lemma total_where_update P k0 (r : totals_row) amount t :
  NoDup (row_key <$> t) →
  head (filter (λ r', row_key r' = k0) t) = Some r →
  total_where P
    (sql_update (λ r', row_key r' = k0)
       (λ r', mk_totals_row (row_chat_id r') (row_date r') (row_shift r')
                (row_currency r') (row_total r + amount) (row_invoices r + 1))
       t) =
    summary_add (total_where P t)
      (if P k0 then mk_summary amount 1 else zero_summary).
Proof.
  induction t as [|x t IH]; intros Hnd Hhead; [done|].
  rewrite fmap_cons in Hnd. apply NoDup_cons in Hnd as [Hfresh Hnd].
  unfold sql_update in *. rewrite fmap_cons.
  destruct (decide (row_key x = k0)) as [Hx|Hx].
  - rewrite filter_cons_True in Hhead by done. injection Hhead as ->.
    assert (Hnone : filter (λ r', row_key r' = k0) t = []).
    { destruct (filter _ t) as [|y l] eqn:Hf; [done|]. exfalso.
      assert (Hy : y ∈ filter (λ r', row_key r' = k0) t)
        by (rewrite Hf; by left).
      apply list_elem_of_filter in Hy as [Hk Hy]. apply Hfresh.
      rewrite Hx, <- Hk. by apply list_elem_of_fmap_2. }
    pose proof (sql_update_none (λ r', row_key r' = k0)
      (λ r', mk_totals_row (row_chat_id r') (row_date r') (row_shift r')
               (row_currency r') (row_total r + amount) (row_invoices r + 1))
      t Hnone) as Hsame.
    unfold sql_update in Hsame. rewrite Hsame.
    rewrite !total_where_cons.
    change (row_key (mk_totals_row (row_chat_id r) (row_date r) (row_shift r)
              (row_currency r) (row_total r + amount) (row_invoices r + 1)))
      with (row_key r).
    rewrite Hx. destruct (P k0); summary_eq.
  - rewrite filter_cons_False in Hhead by done.
    rewrite !total_where_cons, (IH Hnd Hhead).
    destruct (P (row_key x)), (P k0); summary_eq.
Qed.

(** Zeroing the rows of a shift and archiving them moves their sums. *)
Lemma total_where_move P chat_id date_str shift t :
  summary_add
    (total_where P (sql_update (at_shift chat_id date_str shift) zeroed t))
    (total_where P
       (archived chat_id date_str shift <$>
          filter (at_shift chat_id date_str shift) t)) =
  total_where P t.
Proof.
  unfold sql_update. induction t as [|x t IH]; [done|].
  rewrite fmap_cons. destruct (decide (at_shift chat_id date_str shift x))
    as [Hx|Hx].
  - rewrite filter_cons_True by done. rewrite fmap_cons, !total_where_cons.
    assert (Hk : row_key (archived chat_id date_str shift x) = row_key x).
    { destruct Hx as (Ha & Hd & Hs). unfold row_key, archived. simpl.
      by rewrite Ha, Hd, Hs. }
    rewrite Hk. change (row_key (zeroed x)) with (row_key x).
    rewrite <- IH. destruct (P (row_key x)); summary_eq.
  - rewrite filter_cons_False by done. rewrite !total_where_cons, <- IH.
    destruct (P (row_key x)); summary_eq.
Qed.

Lemma update_total_balanced now_dt chat_id currency amount db db' :
  update_total now_dt chat_id currency amount db = Some db' →
  primary_key_ok (totals db) → balanced db → balanced db'.
Proof.
  intros (sh & biz & _ & Ho & Hh & Ht)%update_total_inv Hpk Hbal P.
  rewrite Ho, Hh, ledger_where_snoc, <- (Hbal P).
  change (h_key _) with ((chat_id, biz, sh, currency) : key).
  destruct (head _) as [r|] eqn:Hhead; rewrite Ht.
  - rewrite (total_where_update P _ r amount _ Hpk Hhead).
    destruct (P (chat_id, biz, sh, currency)); summary_eq.
  - rewrite total_where_app, total_where_cons.
    change (row_key _) with ((chat_id, biz, sh, currency) : key).
    destruct (P (chat_id, biz, sh, currency)); summary_eq.
Qed.

Lemma move_to_old_balanced chat_id shift date_str db :
  balanced db → balanced (move_to_old chat_id shift date_str db).
Proof.
  intros Hbal P.
  destruct (move_to_old_fields chat_id shift date_str db) as (-> & -> & ->).
  rewrite total_where_app, <- (Hbal P).
  rewrite <- (total_where_move P chat_id date_str shift (totals db)).
  summary_eq.
Qed.

Lemma run_ops_balanced ops db :
  Forall record_or_close ops →
  primary_key_ok (totals db) → balanced db →
  primary_key_ok (totals (run_ops ops db)) ∧ balanced (run_ops ops db).
Proof.
  unfold run_ops. intros Hops. revert db.
  induction Hops as [|o ops Ho _ IH]; intros db Hpk Hbal; [done|]. simpl.
  apply IH; [by apply apply_op_primary_key|].
  destruct o as [c|a s d|a d|]; simpl in *; [| |done..].
  - destruct (update_total _ _ _ _ db) as [db'|] eqn:Hup; simpl; [|done].
    by eapply update_total_balanced.
  - by apply move_to_old_balanced.
Qed.

Lemma queries_without_empty_currency now chat_id date_str shift db :
  get_totals now chat_id date_str shift db !! "" = None ∧
  get_old_totals now chat_id date_str db !! "" = None.
Proof. split; apply fill_data_shape. Qed.

(** ** Queries as sums over keys *)

Lemma reported_total_all now chat_id date_str db cur :
  date_str ≠ "" → cur ≠ "" →
  reported (get_totals now chat_id (Some date_str) None db) cur =
    total_where
      (λ k, bool_decide (k.1.1.1 = chat_id ∧ k.1.1.2 = date_str ∧ k.2 = cur))
      (totals db).
Proof.
  intros Hd Hcur. unfold get_totals. cbv zeta. rewrite py_or_Some by done.
  rewrite reported_group, decide_False by done.
  unfold total_where. rewrite list_filter_filter.
  f_equal; do 2 f_equal; apply list_filter_iff; intros r;
    rewrite bool_decide_spec; unfold at_date, row_key; simpl; tauto.
Qed.

Lemma reported_old_totals now chat_id date_str db cur :
  date_str ≠ "" → cur ≠ "" →
  reported (get_old_totals now chat_id (Some date_str) db) cur =
    total_where
      (λ k, bool_decide (k.1.1.1 = chat_id ∧ k.1.1.2 = date_str ∧ k.2 = cur))
      (old_totals db).
Proof.
  intros Hd Hcur. unfold get_old_totals. cbv zeta. rewrite py_or_Some by done.
  rewrite reported_group, decide_False by done.
  unfold total_where. rewrite list_filter_filter.
  f_equal; do 2 f_equal; apply list_filter_iff; intros r;
    rewrite bool_decide_spec; unfold at_date, row_key; simpl; tauto.
Qed.

Lemma reported_total_shift now chat_id date_str shift db cur :
  primary_key_ok (totals db) → date_str ≠ "" → shift ≠ "" → cur ≠ "" →
  reported (get_totals now chat_id (Some date_str) (Some shift) db) cur =
    total_where (λ k, bool_decide (k = (chat_id, date_str, shift, cur)))
      (totals db).
Proof.
  intros Hpk Hd Hs Hcur. unfold get_totals. cbv zeta.
  rewrite py_or_Some by done. rewrite (decide_False (P := shift = "")) by done.
  rewrite reported_rows by by apply primary_key_currencies.
  rewrite decide_False by done.
  unfold total_where. rewrite list_filter_filter.
  f_equal; do 2 f_equal; apply list_filter_iff; intros r;
    rewrite bool_decide_spec; unfold at_shift, row_key; simpl;
    (split; [intros (<- & <- & <- & <-); done|intros [= <- <- <- <-]; done]).
Qed.

Lemma reported_empty_currency now chat_id date_str shift db :
  reported (get_totals now chat_id date_str shift db) "" = zero_summary ∧
  reported (get_old_totals now chat_id date_str db) "" = zero_summary.
Proof.
  destruct (queries_without_empty_currency now chat_id date_str shift db)
    as [Ht Ho].
  unfold reported. by rewrite Ht, Ho.
Qed.

Lemma empty_db_balanced : balanced empty_db.
Proof. intros P. reflexivity. Qed.

Lemma ledger_of_date_count h chat_id date_str cur :
  s_invoices (ledger_of_date h chat_id date_str cur) =
    entries_of_date h chat_id date_str cur.
Proof.
  unfold ledger_of_date, ledger_where, entries_of_date. simpl. do 2 f_equal.
  apply list_filter_iff. intros e. rewrite bool_decide_spec.
  unfold h_key. simpl. tauto.
Qed.

Lemma ledger_of_shift_count h chat_id date_str shift cur :
  s_invoices (ledger_of_shift h chat_id date_str shift cur) =
    entries_of_shift h chat_id date_str shift cur.
Proof.
  unfold ledger_of_shift, ledger_where, entries_of_shift. simpl. do 2 f_equal.
  apply list_filter_iff. intros e. by rewrite bool_decide_spec.
Qed.

(** X7. With records and closings only, starting from the empty database,
    no invoice is lost and none is counted twice: for every account,
    business date and currency, the count the all-shifts totals query
    reports plus the count the archive query reports is the number of the
    ledger entries of that account, date and currency. *)
Theorem totals_and_archive_count_the_ledger (ops : list op) (now : datetime)
    (chat_id : Z) (date_str cur : string) :
  Forall record_or_close ops → date_str ≠ "" → cur ≠ "" →
  let db := run_ops ops empty_db in
  s_invoices (reported (get_totals now chat_id (Some date_str) None db) cur) +
  s_invoices (reported (get_old_totals now chat_id (Some date_str) db) cur) =
  entries_of_date (history db) chat_id date_str cur.
Proof.
  intros Hops Hd Hcur db.
  destruct (run_ops_balanced ops empty_db Hops) as [_ Hbal];
    [apply NoDup_nil_2|apply empty_db_balanced|].
  rewrite reported_total_all, reported_old_totals by done.
  rewrite <- ledger_of_date_count. unfold ledger_of_date.
  by rewrite <- (Hbal _).
Qed.

Lemma totals_and_archive_count_the_ledger_witness :
  s_invoices
    (reported (get_totals (at_clock 2024 1 1 20 0 0 0) 1 (Some "2024-01-01")
                 None (run_ops ops_books empty_db)) "USD") +
  s_invoices
    (reported (get_old_totals (at_clock 2024 1 1 20 0 0 0) 1
                 (Some "2024-01-01") (run_ops ops_books empty_db)) "USD") =
  entries_of_date (history (run_ops ops_books empty_db)) 1 "2024-01-01" "USD".
Proof.
  apply (totals_and_archive_count_the_ledger ops_books
           (at_clock 2024 1 1 20 0 0 0) 1 "2024-01-01" "USD").
  - unfold ops_books. repeat constructor.
  - discriminate.
  - discriminate.
Defined.

Lemma update_total_total_where now_dt chat_id currency amount db db' sh biz :
  update_total now_dt chat_id currency amount db = Some db' →
  get_shift_and_business_date now_dt = Some (sh, biz) →
  primary_key_ok (totals db) →
  ∀ P, total_where P (totals db') =
         summary_add (total_where P (totals db))
           (if P (chat_id, biz, sh, currency)
            then mk_summary amount 1 else zero_summary).
Proof.
  intros (sh' & biz' & Hc' & _ & _ & Ht)%update_total_inv Hc Hpk P.
  rewrite Hc in Hc'. injection Hc' as <- <-.
  destruct (head _) as [r|] eqn:Hhead; rewrite Ht.
  - apply (total_where_update P _ r amount _ Hpk Hhead).
  - rewrite total_where_app, total_where_cons.
    change (row_key _) with ((chat_id, biz, sh, currency) : key).
    destruct (P (chat_id, biz, sh, currency)); summary_eq.
Qed.

(** The per-shift totals query after a successful [update_total]: one more
    invoice under the key of the record, the same report under any other. *)
Lemma update_total_count_shift now_dt now chat_id currency amount db db' sh biz
    chat_id' date_str' shift' cur' :
  primary_key_ok (totals db) →
  update_total now_dt chat_id currency amount db = Some db' →
  get_shift_and_business_date now_dt = Some (sh, biz) →
  date_str' ≠ "" → shift' ≠ "" → cur' ≠ "" →
  if decide ((chat_id', date_str', shift', cur') = (chat_id, biz, sh, currency))
  then
    s_invoices
      (reported (get_totals now chat_id' (Some date_str') (Some shift') db') cur') =
    s_invoices
      (reported (get_totals now chat_id' (Some date_str') (Some shift') db) cur')
    + 1
  else
    reported (get_totals now chat_id' (Some date_str') (Some shift') db') cur' =
    reported (get_totals now chat_id' (Some date_str') (Some shift') db) cur'.
Proof.
  intros Hpk Hup Hc Hd Hs Hcur.
  pose proof (update_total_primary_key _ _ _ _ _ _ Hup Hpk) as Hpk'.
  pose proof (update_total_total_where _ _ _ _ _ _ _ _ Hup Hc Hpk) as Htw.
  rewrite !reported_total_shift by done. rewrite Htw.
  destruct (decide ((chat_id', date_str', shift', cur') =
                    (chat_id, biz, sh, currency))) as [Heq|Hne].
  - rewrite bool_decide_eq_true_2 by done. reflexivity.
  - rewrite bool_decide_eq_false_2 by done. apply summary_add_zero_r.
Qed.

(** The same for the all-shifts query. *)
Lemma update_total_count_all now_dt now chat_id currency amount db db' sh biz
    chat_id' date_str' cur' :
  primary_key_ok (totals db) →
  update_total now_dt chat_id currency amount db = Some db' →
  get_shift_and_business_date now_dt = Some (sh, biz) →
  date_str' ≠ "" → cur' ≠ "" →
  if decide ((chat_id', date_str', cur') = (chat_id, biz, currency))
  then
    s_invoices (reported (get_totals now chat_id' (Some date_str') None db') cur') =
    s_invoices (reported (get_totals now chat_id' (Some date_str') None db) cur')
    + 1
  else
    reported (get_totals now chat_id' (Some date_str') None db') cur' =
    reported (get_totals now chat_id' (Some date_str') None db) cur'.
Proof.
  intros Hpk Hup Hc Hd Hcur.
  pose proof (update_total_total_where _ _ _ _ _ _ _ _ Hup Hc Hpk) as Htw.
  rewrite !reported_total_all by done. rewrite Htw. simpl.
  destruct (decide ((chat_id', date_str', cur') = (chat_id, biz, currency)))
    as [Heq|Hne].
  - injection Heq as -> -> ->. rewrite bool_decide_eq_true_2 by done.
    reflexivity.
  - rewrite bool_decide_eq_false_2; [apply summary_add_zero_r|].
    intros (-> & -> & ->). done.
Qed.

(** X8. A successful [update_total] classified as (shift, business date)
    adds one invoice to what the totals queries report for its account,
    date, shift and currency, per shift and over all shifts, and changes
    the report, total and count, of no other account, date, shift or
    currency. *)
Theorem update_total_then_counts (now_dt now : datetime) (chat_id : Z)
    (currency : string) (amount : Z) (db db' : database) (sh biz : string)
    (chat_id' : Z) (date_str' shift' cur' : string) :
  primary_key_ok (totals db) →
  update_total now_dt chat_id currency amount db = Some db' →
  get_shift_and_business_date now_dt = Some (sh, biz) →
  date_str' ≠ "" → shift' ≠ "" → cur' ≠ "" →
  (if decide ((chat_id', date_str', shift', cur') = (chat_id, biz, sh, currency))
   then
     s_invoices
       (reported (get_totals now chat_id' (Some date_str') (Some shift') db')
          cur') =
     s_invoices
       (reported (get_totals now chat_id' (Some date_str') (Some shift') db)
          cur') + 1
   else
     reported (get_totals now chat_id' (Some date_str') (Some shift') db') cur' =
     reported (get_totals now chat_id' (Some date_str') (Some shift') db) cur') ∧
  (if decide ((chat_id', date_str', cur') = (chat_id, biz, currency))
   then
     s_invoices
       (reported (get_totals now chat_id' (Some date_str') None db') cur') =
     s_invoices
       (reported (get_totals now chat_id' (Some date_str') None db) cur') + 1
   else
     reported (get_totals now chat_id' (Some date_str') None db') cur' =
     reported (get_totals now chat_id' (Some date_str') None db) cur').
Proof.
  intros Hpk Hup Hc Hd Hs Hcur. split.
  - by eapply update_total_count_shift.
  - by eapply update_total_count_all.
Qed.

Lemma update_total_then_counts_witness :
  s_invoices
    (reported
       (get_totals (at_clock 2024 1 1 20 0 0 0) 1 (Some "2024-01-01")
          (Some "shift2") db_second_shift) "USD") =
  s_invoices
    (reported
       (get_totals (at_clock 2024 1 1 20 0 0 0) 1 (Some "2024-01-01")
          (Some "shift2") db_shift1_closed) "USD") + 1.
Proof.
  assert (Hpk : primary_key_ok (totals db_shift1_closed))
    by (unfold primary_key_ok; apply (bool_decide_unpack _); vm_compute; exact I).
  assert (Hup : update_total (at_clock 2024 1 1 19 0 0 0) 1 "USD" 300
                  db_shift1_closed = Some db_second_shift) by reflexivity.
  assert (Hc : get_shift_and_business_date (at_clock 2024 1 1 19 0 0 0) =
               Some ("shift2", "2024-01-01")) by reflexivity.
  assert (Hd : "2024-01-01" ≠ "") by discriminate.
  assert (Hs : "shift2" ≠ "") by discriminate.
  assert (Hcur : "USD" ≠ "") by discriminate.
  exact (proj1 (update_total_then_counts (at_clock 2024 1 1 19 0 0 0)
                  (at_clock 2024 1 1 20 0 0 0) 1 "USD" 300 db_shift1_closed
                  db_second_shift "shift2" "2024-01-01" 1 "2024-01-01"
                  "shift2" "USD" Hpk Hup Hc Hd Hs Hcur)).
Defined.

(** ** The reply to a message with amounts *)

Lemma amounts_of_cons cur now_dt amount c rest :
  amounts_of cur ((now_dt, (amount, c)) :: rest) =
    summary_add
      (if bool_decide ((c : string) = cur)
       then mk_summary amount 1 else zero_summary)
      (amounts_of cur rest).
Proof.
  unfold amounts_of. cbv zeta. case_bool_decide as Hc.
  - rewrite filter_cons_True by done. unfold summary_add. simpl. f_equal. lia.
  - rewrite filter_cons_False by done. unfold summary_add. simpl.
    f_equal.
Qed.

Lemma update_all_total_where chat_id sh biz amounts db :
  Forall (λ a : datetime * (Z * string),
            get_shift_and_business_date a.1 = Some (sh, biz)) amounts →
  primary_key_ok (totals db) →
  ∃ db', update_all chat_id amounts db = (db', true) ∧
         primary_key_ok (totals db') ∧
         length (history db') = (length (history db) + length amounts)%nat ∧
         ∀ chat_id' date_str' shift' cur,
           total_where
             (λ k, bool_decide (k = (chat_id', date_str', shift', cur)))
             (totals db') =
           summary_add
             (total_where
                (λ k, bool_decide (k = (chat_id', date_str', shift', cur)))
                (totals db))
             (if bool_decide ((chat_id', date_str', shift') = (chat_id, biz, sh))
              then amounts_of cur amounts else zero_summary).
Proof.
  intros Hall. revert db.
  induction Hall as [|[now_dt [amount c]] rest Hc _ IH]; intros db Hpk.
  { exists db. split; [done|]. split; [done|]. split; [simpl; lia|].
    intros a' d' s' cur. case_bool_decide; by rewrite summary_add_zero_r. }
  simpl in Hc. simpl.
  destruct (update_total now_dt chat_id c amount db) as [db1|] eqn:Hup.
  2: { unfold update_total in Hup. rewrite Hc in Hup. discriminate. }
  pose proof (update_total_primary_key _ _ _ _ _ _ Hup Hpk) as Hpk1.
  destruct (IH db1 Hpk1) as (db' & Hrun & Hpk' & Hlen & Hsum).
  exists db'. split; [done|]. split; [done|]. split.
  { rewrite Hlen.
    apply update_total_history in Hup as (? & ? & _ & ->).
    rewrite length_app. simpl. lia. }
  intros a' d' s' cur.
  rewrite Hsum, (update_total_total_where _ _ _ _ _ _ _ _ Hup Hc Hpk).
  rewrite amounts_of_cons. cbv beta.
  destruct (decide ((a', d', s') = (chat_id, biz, sh))) as [[= -> -> ->]|Hk].
  - rewrite (bool_decide_eq_true_2 ((chat_id, biz, sh) = (chat_id, biz, sh)))
      by done.
    destruct (decide (c = cur)) as [->|Hne].
    + rewrite !bool_decide_eq_true_2 by done.
      destruct (total_where _ (totals db)), (amounts_of cur rest); summary_eq.
    + rewrite !bool_decide_eq_false_2 by congruence.
      destruct (total_where _ (totals db)), (amounts_of cur rest); summary_eq.
  - rewrite !bool_decide_eq_false_2 by congruence.
    destruct (total_where _ (totals db)); summary_eq.
Qed.

(** What [update_all] leaves when the loop ran to its end with every call
    classified as (sh, biz): one ledger entry for each amount, and under
    every key the count it had plus the number of the amounts recorded
    under that key; a key of another account, date or shift keeps its
    report. *)
Lemma update_all_counts chat_id sh biz amounts db db' :
  Forall (λ a : datetime * (Z * string),
            get_shift_and_business_date a.1 = Some (sh, biz)) amounts →
  primary_key_ok (totals db) →
  update_all chat_id amounts db = (db', true) →
  primary_key_ok (totals db') ∧
  length (history db') = (length (history db) + length amounts)%nat ∧
  ∀ now chat_id' date_str' shift' cur,
    date_str' ≠ "" → shift' ≠ "" → cur ≠ "" →
    if decide ((chat_id', date_str', shift') = (chat_id, biz, sh))
    then
      s_invoices
        (reported (get_totals now chat_id' (Some date_str') (Some shift') db')
           cur) =
      s_invoices
        (reported (get_totals now chat_id' (Some date_str') (Some shift') db)
           cur) + amounts_in cur amounts
    else
      reported (get_totals now chat_id' (Some date_str') (Some shift') db') cur =
      reported (get_totals now chat_id' (Some date_str') (Some shift') db) cur.
Proof.
  intros Hall Hpk Hrun.
  destruct (update_all_total_where chat_id sh biz amounts db Hall Hpk)
    as (db1 & Hrun1 & Hpk' & Hlen & Hsum).
  rewrite Hrun in Hrun1. injection Hrun1 as <-.
  split; [done|]. split; [done|].
  intros now a' d' s' cur Hd Hs Hcur.
  rewrite !reported_total_shift by done. rewrite Hsum.
  destruct (decide ((a', d', s') = (chat_id, biz, sh))) as [Heq|Hne].
  - rewrite bool_decide_eq_true_2 by done. reflexivity.
  - rewrite bool_decide_eq_false_2 by done. apply summary_add_zero_r.
Qed.

Lemma handle_message_amounts_replied now amounts now' chat_id db db' data :
  handle_message_amounts now amounts now' chat_id db = (db', Replied data) →
  ∃ sh biz,
    get_shift_and_business_date now = Some (sh, biz) ∧
    amounts ≠ [] ∧
    update_all chat_id amounts db = (db', true) ∧
    data = get_totals now' chat_id (Some biz) (Some sh) db'.
Proof.
  unfold handle_message_amounts.
  destruct (get_shift_and_business_date now) as [[sh biz]|]; [|discriminate].
  destruct amounts as [|a amounts]; [discriminate|].
  destruct (update_all chat_id (a :: amounts) db) as [db1 [|]];
    [|discriminate].
  intros [= <- <-]. by exists sh, biz.
Qed.

(** X9. When the amounts branch of [handle_message] has replied, every
    [update_total] of the message having been classified like the reading
    the handler took on entry: the message held an amount, the reply is the
    totals query of the entry's shift, the ledger has one more entry for
    each amount, and for every currency the reply counts what that query
    counted before plus the number of the amounts of that currency in the
    message. *)
Theorem amounts_reply_counts (now now' : datetime)
    (amounts : list (datetime * (Z * string))) (chat_id : Z)
    (db db' : database) (data : gmap string summary) (sh biz : string) :
  primary_key_ok (totals db) →
  get_shift_and_business_date now = Some (sh, biz) →
  Forall (λ a : datetime * (Z * string),
            get_shift_and_business_date a.1 = Some (sh, biz)) amounts →
  handle_message_amounts now amounts now' chat_id db = (db', Replied data) →
  amounts ≠ [] ∧
  data = get_totals now' chat_id (Some biz) (Some sh) db' ∧
  length (history db') = (length (history db) + length amounts)%nat ∧
  ∀ cur,
    cur ≠ "" →
    s_invoices (reported data cur) =
      s_invoices
        (reported (get_totals now' chat_id (Some biz) (Some sh) db) cur)
      + amounts_in cur amounts.
Proof.
  intros Hpk Hc Hall Hrep.
  apply handle_message_amounts_replied in Hrep
    as (sh' & biz' & Hc' & Hne & Hrun & ->).
  rewrite Hc in Hc'. injection Hc' as <- <-.
  destruct (update_all_counts chat_id sh biz amounts db db' Hall Hpk Hrun)
    as (_ & Hlen & Hcount).
  destruct (get_shift_and_business_date_nonempty _ _ _ Hc) as [Hsh Hbiz].
  split; [done|]. split; [done|]. split; [done|].
  intros cur Hcur.
  pose proof (Hcount now' chat_id biz sh cur Hbiz Hsh Hcur) as H.
  by rewrite decide_True in H.
Qed.

Lemma amounts_reply_counts_witness :
  s_invoices
    (reported
       (get_totals (at_clock 2024 1 1 7 0 0 3) 1 (Some "2024-01-01")
          (Some "shift1")
          (handle_message_amounts (at_clock 2024 1 1 7 0 0 0)
             [(at_clock 2024 1 1 7 0 0 1, (500, "USD"));
              (at_clock 2024 1 1 7 0 0 2, (300, "USD"))]
             (at_clock 2024 1 1 7 0 0 3) 1 empty_db).1) "USD") =
  s_invoices
    (reported
       (get_totals (at_clock 2024 1 1 7 0 0 3) 1 (Some "2024-01-01")
          (Some "shift1") empty_db) "USD")
  + amounts_in "USD"
      [(at_clock 2024 1 1 7 0 0 1, (500, "USD"));
       (at_clock 2024 1 1 7 0 0 2, (300, "USD"))].
Proof.
  assert (Hpk : primary_key_ok (totals empty_db)) by apply NoDup_nil_2.
  assert (Hc : get_shift_and_business_date (at_clock 2024 1 1 7 0 0 0) =
               Some ("shift1", "2024-01-01")) by reflexivity.
  assert (Hall : Forall (λ a : datetime * (Z * string),
                   get_shift_and_business_date a.1 =
                     Some ("shift1", "2024-01-01"))
                   [(at_clock 2024 1 1 7 0 0 1, (500, "USD"));
                    (at_clock 2024 1 1 7 0 0 2, (300, "USD"))])
    by repeat constructor.
  assert (Hcur : "USD" ≠ "") by discriminate.
  destruct (amounts_reply_counts (at_clock 2024 1 1 7 0 0 0)
              (at_clock 2024 1 1 7 0 0 3)
              [(at_clock 2024 1 1 7 0 0 1, (500, "USD"));
               (at_clock 2024 1 1 7 0 0 2, (300, "USD"))] 1 empty_db
              _ _ "shift1" "2024-01-01" Hpk Hc Hall eq_refl)
    as (_ & Hdata & _ & Hcount).
  rewrite <- (Hcount "USD" Hcur). reflexivity.
Defined.

(** ** All shifts and each shift *)

Lemma total_where_by_shift chat_id date_str cur t :
  Forall row_ok t →
  total_where
    (λ k, bool_decide (k.1.1.1 = chat_id ∧ k.1.1.2 = date_str ∧ k.2 = cur)) t =
  summary_add
    (summary_add
       (total_where (λ k, bool_decide (k = (chat_id, date_str, "shift1", cur))) t)
       (total_where (λ k, bool_decide (k = (chat_id, date_str, "shift2", cur))) t))
    (total_where (λ k, bool_decide (k = (chat_id, date_str, "shift3", cur))) t).
Proof.
  induction 1 as [|x t [Hx _] _ IH]; [done|].
  rewrite !total_where_cons, IH. clear IH. cbv beta.
  unfold shift_names in Hx.
  destruct x as [a d s c tot inv]. unfold row_key. simpl in *.
  assert (Hs : s = "shift1" ∨ s = "shift2" ∨ s = "shift3").
  { apply elem_of_cons in Hx as [->|Hx]; [by left|].
    apply elem_of_cons in Hx as [->|Hx]; [by right; left|].
    apply elem_of_cons in Hx as [->|Hx]; [by right; right|].
    by apply elem_of_nil in Hx. }
  destruct Hs as [-> | [-> | ->]]; repeat case_bool_decide; destruct_and?;
    simplify_eq; try summary_eq.
  all: exfalso;
    match goal with
    | H : ¬ (_ ∧ _) |- _ => by apply H
    end.
Qed.

(** X10. After any sequence of the four writers on the empty database, the
    count the all-shifts totals query reports for a currency is the sum of
    the counts the three per-shift queries report for it. *)
Theorem count_all_is_sum_of_shifts (ops : list op) (now : datetime)
    (chat_id : Z) (date_str cur : string) :
  date_str ≠ "" →
  let db := run_ops ops empty_db in
  s_invoices (reported (get_totals now chat_id (Some date_str) None db) cur) =
    s_invoices
      (reported (get_totals now chat_id (Some date_str) (Some "shift1") db) cur) +
    s_invoices
      (reported (get_totals now chat_id (Some date_str) (Some "shift2") db) cur) +
    s_invoices
      (reported (get_totals now chat_id (Some date_str) (Some "shift3") db) cur).
Proof.
  intros Hd db.
  destruct (decide (cur = "")) as [->|Hcur].
  { by rewrite !(proj1 (reported_empty_currency _ _ _ _ _)). }
  assert (Hpk : primary_key_ok (totals db))
    by (apply run_ops_primary_key, NoDup_nil_2).
  destruct (rows_ok_after_operations ops) as [Hok _].
  rewrite reported_total_all by done.
  rewrite !reported_total_shift by done.
  by rewrite (total_where_by_shift chat_id date_str cur (totals db)).
Qed.

Lemma count_all_is_sum_of_shifts_witness :
  s_invoices
    (reported (get_totals (at_clock 2024 1 1 20 0 0 0) 1 (Some "2024-01-01")
                 None (run_ops ops_books empty_db)) "USD") =
    s_invoices
      (reported (get_totals (at_clock 2024 1 1 20 0 0 0) 1
                   (Some "2024-01-01") (Some "shift1")
                   (run_ops ops_books empty_db)) "USD") +
    s_invoices
      (reported (get_totals (at_clock 2024 1 1 20 0 0 0) 1
                   (Some "2024-01-01") (Some "shift2")
                   (run_ops ops_books empty_db)) "USD") +
    s_invoices
      (reported (get_totals (at_clock 2024 1 1 20 0 0 0) 1
                   (Some "2024-01-01") (Some "shift3")
                   (run_ops ops_books empty_db)) "USD").
Proof.
  apply (count_all_is_sum_of_shifts ops_books (at_clock 2024 1 1 20 0 0 0) 1
           "2024-01-01" "USD").
  discriminate.
Defined.

(** ** Recomputation as sums over keys *)

Lemma ledger_where_ext (P Q : key → bool) h :
  (∀ e, e ∈ h → P (h_key e) = Q (h_key e)) →
  ledger_where P h = ledger_where Q h.
Proof.
  induction h as [|e h IH]; intros Hext; [done|].
  rewrite !ledger_where_cons, IH.
  - by rewrite (Hext e) by by left.
  - intros e' He'. apply Hext. by right.
Qed.

Lemma ledger_where_split (Q Q1 Q2 : key → bool) h :
  (∀ k, Q k = Q1 k || Q2 k) → (∀ k, Q1 k && Q2 k = false) →
  ledger_where Q h = summary_add (ledger_where Q1 h) (ledger_where Q2 h).
Proof.
  intros Hor Hdisj. induction h as [|e h IH]; [done|].
  rewrite !ledger_where_cons, IH, Hor.
  pose proof (Hdisj (h_key e)) as Hd.
  destruct (Q1 (h_key e)), (Q2 (h_key e)); simpl in *; try discriminate;
    destruct (ledger_where Q1 h), (ledger_where Q2 h); summary_eq.
Qed.

Lemma ledger_where_none (Q : key → bool) h :
  (∀ k, Q k = false) → ledger_where Q h = zero_summary.
Proof.
  intros HQ. induction h as [|e h IH]; [done|].
  by rewrite ledger_where_cons, HQ.
Qed.

(** The rows of the GROUP BY scan, summed over the keys that satisfy [P],
    give the ledger entries whose key satisfies [P]. *)
Lemma total_where_groups P h (ks : list key) :
  NoDup ks →
  total_where P
    ((λ k : key,
        let g := filter (λ e, h_key e = k) h in
        mk_totals_row k.1.1.1 k.1.1.2 k.1.2 k.2
          (Zsum (h_amount <$> g)) (Z.of_nat (length g))) <$> ks) =
  ledger_where (λ k, P k && bool_decide (k ∈ ks)) h.
Proof.
  induction 1 as [|k ks Hfresh Hnd IH].
  { symmetry. apply ledger_where_none. intros k.
    rewrite bool_decide_eq_false_2 by apply not_elem_of_nil.
    apply andb_false_r. }
  rewrite fmap_cons, total_where_cons, IH, row_key_of_group. cbv zeta.
  rewrite (ledger_where_split (λ k', P k' && bool_decide (k' ∈ k :: ks))
             (λ k', P k && bool_decide (k' = k))
             (λ k', P k' && bool_decide (k' ∈ ks))).
  - destruct (P k) eqn:HP.
    + f_equal. unfold ledger_where. simpl.
      f_equal; do 2 f_equal; apply list_filter_iff; intros e;
        by rewrite bool_decide_spec.
    + rewrite (ledger_where_none (λ k', false && bool_decide (k' = k)))
        by done.
      by destruct (ledger_where _ h).
  - intros k'. destruct (decide (k' = k)) as [->|Hne].
    + rewrite (bool_decide_eq_true_2 (k = k)) by done.
      rewrite (bool_decide_eq_true_2 (k ∈ k :: ks)) by (by left).
      rewrite (bool_decide_eq_false_2 (k ∈ ks)) by done.
      by destruct (P k).
    + rewrite (bool_decide_eq_false_2 (k' = k)) by done.
      rewrite andb_false_r. simpl. f_equal. apply bool_decide_ext.
      rewrite elem_of_cons. tauto.
  - intros k'. destruct (decide (k' = k)) as [->|Hne].
    + rewrite (bool_decide_eq_false_2 (k ∈ ks)) by done.
      by rewrite !andb_false_r.
    + rewrite (bool_decide_eq_false_2 (k' = k)) by done.
      by rewrite andb_false_r.
Qed.

Lemma total_where_recalc P db :
  total_where P (totals (recalc_totals_from_history db)) =
    ledger_where P (history db).
Proof.
  rewrite recalc_totals. unfold sql_group_history.
  rewrite total_where_groups by apply NoDup_remove_dups.
  apply ledger_where_ext. intros e He.
  rewrite bool_decide_eq_true_2; [apply andb_true_r|].
  apply elem_of_remove_dups. by apply list_elem_of_fmap_2.
Qed.

(** X11. After [recalc_totals_from_history], whatever the database was
    (closed shifts, resets), the totals queries count the ledger: per shift
    the number of the entries of that key, over all shifts the number of
    those of the account, date and currency.  The archive is left as it
    was, so invoices archived before are counted by both queries
    afterwards. *)
Theorem recalc_counts_ledger (db : database) (now : datetime) (chat_id : Z)
    (date_str shift cur : string) :
  date_str ≠ "" → shift ≠ "" → cur ≠ "" →
  let db' := recalc_totals_from_history db in
  s_invoices
    (reported (get_totals now chat_id (Some date_str) (Some shift) db') cur) =
    entries_of_shift (history db) chat_id date_str shift cur ∧
  s_invoices (reported (get_totals now chat_id (Some date_str) None db') cur) =
    entries_of_date (history db) chat_id date_str cur ∧
  get_old_totals now chat_id (Some date_str) db' =
    get_old_totals now chat_id (Some date_str) db ∧
  history db' = history db.
Proof.
  intros Hd Hs Hcur db'.
  assert (Hpk : primary_key_ok (totals db')) by apply recalc_consistent.
  split; [|split; [|done]].
  - rewrite reported_total_shift by done.
    rewrite <- ledger_of_shift_count. unfold db'.
    by rewrite total_where_recalc.
  - rewrite reported_total_all by done.
    rewrite <- ledger_of_date_count. unfold db'.
    by rewrite total_where_recalc.
Qed.

Lemma recalc_counts_ledger_witness :
  s_invoices
    (reported (get_totals (at_clock 2024 1 1 20 0 0 0) 1 (Some "2024-01-01")
                 (Some "shift1") (recalc_totals_from_history db_shift1_closed))
       "USD") =
  entries_of_shift (history db_shift1_closed) 1 "2024-01-01" "shift1" "USD".
Proof.
  apply (recalc_counts_ledger db_shift1_closed (at_clock 2024 1 1 20 0 0 0) 1
           "2024-01-01" "shift1" "USD"); discriminate.
Defined.

(** ** Reset, and what a close leaves alone *)

Lemma filter_sql_update_sub (P sel : totals_row → Prop)
    `{!∀ r, Decision (P r)} `{!∀ r, Decision (sel r)}
    (set : totals_row → totals_row) t :
  (∀ r, P r → sel r) → (∀ r, P (set r) ↔ P r) →
  filter P (sql_update sel set t) = set <$> filter P t.
Proof.
  intros Hsub Hset. unfold sql_update.
  induction t as [|r t IH]; [done|]. rewrite fmap_cons.
  destruct (decide (P r)) as [Hr|Hr].
  - rewrite decide_True by auto.
    rewrite !filter_cons_True by (done || by apply Hset).
    rewrite fmap_cons. by f_equal.
  - rewrite (filter_cons_False _ r) by done.
    case_decide.
    + rewrite filter_cons_False by (by rewrite Hset). done.
    + by rewrite filter_cons_False.
Qed.

Lemma fill_data_group_zero (rows : list totals_row) cur :
  fill_data (sql_group_currency (zeroed <$> rows)) !! cur = None ∨
  fill_data (sql_group_currency (zeroed <$> rows)) !! cur = Some zero_summary.
Proof.
  rewrite fill_data_group_lookup. case_decide; [by left|].
  case_decide; [|apply base_data_lookup]. right.
  rewrite (Zsum_zero row_total), (Zsum_zero row_invoices); [done|..];
    apply Forall_forall; intros r [_ Hr]%list_elem_of_filter;
    by apply list_elem_of_fmap in Hr as (r0 & -> & _).
Qed.

(** X12. The "Reset" branch, when the classifier answers (shift, business
    date): it leaves the ledger and the archive as they are; afterwards every
    totals query of the account for that business date, per shift or over all
    shifts, holds nothing but zeros; and the totals queries of every other
    account or date answer as before. *)
Theorem reset_zeroes_business_date (now now' : datetime) (chat_id : Z)
    (db : database) (sh biz : string) (shift : option string)
    (chat_id' : Z) (date_str' : string) :
  get_shift_and_business_date now = Some (sh, biz) →
  date_str' ≠ "" → (chat_id', date_str') ≠ (chat_id, biz) →
  ∃ db',
    handle_message_reset now chat_id db = Some db' ∧
    history db' = history db ∧ old_totals db' = old_totals db ∧
    (∀ cur, get_totals now' chat_id (Some biz) shift db' !! cur = None ∨
            get_totals now' chat_id (Some biz) shift db' !! cur =
              Some zero_summary) ∧
    get_totals now' chat_id' (Some date_str') shift db' =
      get_totals now' chat_id' (Some date_str') shift db.
Proof.
  intros Hc Hd' Hother.
  destruct (get_shift_and_business_date_nonempty _ _ _ Hc) as [_ Hbiz].
  exists (reset_totals chat_id biz db).
  split; [unfold handle_message_reset; by rewrite Hc|].
  split; [done|]. split; [done|].
  assert (Hgroup : ∀ cur,
    fill_data (sql_group_currency
      (filter (at_date chat_id biz)
         (sql_update (at_date chat_id biz) zeroed (totals db)))) !! cur = None ∨
    fill_data (sql_group_currency
      (filter (at_date chat_id biz)
         (sql_update (at_date chat_id biz) zeroed (totals db)))) !! cur =
      Some zero_summary).
  { intros cur. rewrite filter_sql_update_selected by done.
    apply fill_data_group_zero. }
  assert (Hframe : filter (at_date chat_id' date_str')
            (sql_update (at_date chat_id biz) zeroed (totals db)) =
          filter (at_date chat_id' date_str') (totals db)).
  { apply filter_sql_update_other. intros r [Ha Hb].
    unfold at_date. simpl. split; intros [Ha' Hb']; apply Hother; congruence. }
  split.
  - intros cur. unfold get_totals, reset_totals. cbv zeta.
    rewrite py_or_Some by done. cbn [totals].
    destruct shift as [s|]; [|apply Hgroup].
    destruct (decide (s = "")); [apply Hgroup|].
    rewrite (filter_sql_update_sub (at_shift chat_id biz s)
               (at_date chat_id biz) zeroed).
    + destruct (fill_step_zero
                  (currency_columns <$>
                     (zeroed <$> filter (at_shift chat_id biz s) (totals db)))
                  base_data) with (cur := cur) as [Hb|Hz].
      * apply Forall_forall. intros row Hrow.
        apply list_elem_of_fmap in Hrow as (r1 & -> & Hr1).
        by apply list_elem_of_fmap in Hr1 as (r0 & -> & _).
      * by left.
      * unfold fill_data. rewrite Hb. apply base_data_lookup.
      * by right.
    + intros r (? & ? & ?). by split.
    + intros r. unfold at_shift. simpl. tauto.
  - unfold get_totals, reset_totals. cbv zeta.
    rewrite py_or_Some by done. cbn [totals].
    destruct shift as [s|]; [|by rewrite Hframe].
    destruct (decide (s = "")); [by rewrite Hframe|].
    rewrite filter_sql_update_other; [done|].
    intros r [Ha Hb]. unfold at_shift. simpl.
    split; intros (Ha' & Hb' & _); apply Hother; congruence.
Qed.

Lemma reset_zeroes_business_date_witness :
  ∃ db',
    handle_message_reset (at_clock 2024 1 1 8 0 0 0) 1 db_two_records =
      Some db' ∧
    history db' = history db_two_records ∧
    old_totals db' = old_totals db_two_records ∧
    (∀ cur,
       get_totals (at_clock 2024 1 1 8 0 0 1) 1 (Some "2024-01-01") None db'
         !! cur = None ∨
       get_totals (at_clock 2024 1 1 8 0 0 1) 1 (Some "2024-01-01") None db'
         !! cur = Some zero_summary) ∧
    get_totals (at_clock 2024 1 1 8 0 0 1) 2 (Some "2024-01-01") None db' =
      get_totals (at_clock 2024 1 1 8 0 0 1) 2 (Some "2024-01-01") None
        db_two_records.
Proof.
  apply (reset_zeroes_business_date (at_clock 2024 1 1 8 0 0 0)
           (at_clock 2024 1 1 8 0 0 1) 1 db_two_records "shift1" "2024-01-01"
           None 2 "2024-01-01").
  - reflexivity.
  - discriminate.
  - discriminate.
Defined.

Lemma sql_update_zeroed_twice (sel : totals_row → Prop)
    `{!∀ r, Decision (sel r)} t :
  (∀ r, sel (zeroed r) ↔ sel r) →
  sql_update sel zeroed (sql_update sel zeroed t) = sql_update sel zeroed t.
Proof.
  intros Hsel. unfold sql_update. rewrite <- list_fmap_compose.
  apply list_fmap_ext. intros _ r _. simpl.
  destruct (decide (sel r)) as [Hr|Hr].
  - by rewrite decide_True by by apply Hsel.
  - by rewrite decide_False.
Qed.

(** X13. [move_to_old] leaves the ledger alone and changes the totals of its
    own (account, date, shift) only: the totals query of any other account,
    date or shift answers as before; and a second call leaves [totals] as the
    first left it. *)
Theorem move_to_old_frame (now : datetime) (chat_id : Z)
    (shift date_str : string) (db : database)
    (chat_id' : Z) (date_str' shift' : string) :
  date_str' ≠ "" → shift' ≠ "" →
  (chat_id', date_str', shift') ≠ (chat_id, date_str, shift) →
  let db1 := move_to_old chat_id shift date_str db in
  history db1 = history db ∧
  get_totals now chat_id' (Some date_str') (Some shift') db1 =
    get_totals now chat_id' (Some date_str') (Some shift') db ∧
  totals (move_to_old chat_id shift date_str db1) = totals db1.
Proof.
  intros Hd Hs Hother db1.
  destruct (move_to_old_fields chat_id shift date_str db) as (Ht & _ & Hh).
  fold db1 in Ht, Hh. split; [done|]. split.
  - unfold get_totals. cbv zeta. rewrite py_or_Some by done.
    rewrite !(decide_False (P := shift' = "")) by done. rewrite Ht.
    rewrite filter_sql_update_other; [done|].
    intros r (Ha & Hb & Hc). unfold at_shift. simpl.
    split; intros (Ha' & Hb' & Hc'); apply Hother; congruence.
  - destruct (move_to_old_fields chat_id shift date_str db1) as (-> & _ & _).
    rewrite Ht. apply sql_update_zeroed_twice.
    intros r. unfold at_shift. simpl. tauto.
Qed.

Lemma move_to_old_frame_witness :
  history db_shift1_closed = history db_two_records ∧
  get_totals (at_clock 2024 1 1 8 0 0 0) 1 (Some "2024-01-01") (Some "shift2")
    db_shift1_closed =
  get_totals (at_clock 2024 1 1 8 0 0 0) 1 (Some "2024-01-01") (Some "shift2")
    db_two_records ∧
  totals (move_to_old 1 "shift1" "2024-01-01" db_shift1_closed) =
    totals db_shift1_closed.
Proof.
  apply (move_to_old_frame (at_clock 2024 1 1 8 0 0 0) 1 "shift1" "2024-01-01"
           db_two_records 1 "2024-01-01" "shift2"); discriminate.
Defined.

(** ** A message across a shift boundary, timestamps, the default date *)

(** X14. When the amounts branch of [handle_message] has replied, every
    [update_total] of the message having been classified as another
    (shift, business date) than the reading the handler took on entry: the
    ledger has one more entry for each amount, and the reply reports, total
    and count, what the totals query of the entry's shift reported before,
    without them. *)
Theorem reply_across_shift_boundary (now now' : datetime)
    (amounts : list (datetime * (Z * string))) (chat_id : Z)
    (db db' : database) (data : gmap string summary)
    (sh biz sh2 biz2 : string) :
  primary_key_ok (totals db) →
  get_shift_and_business_date now = Some (sh, biz) →
  Forall (λ a : datetime * (Z * string),
            get_shift_and_business_date a.1 = Some (sh2, biz2)) amounts →
  (sh2, biz2) ≠ (sh, biz) →
  handle_message_amounts now amounts now' chat_id db = (db', Replied data) →
  length (history db') = (length (history db) + length amounts)%nat ∧
  ∀ cur,
    reported data cur =
      reported (get_totals now' chat_id (Some biz) (Some sh) db) cur.
Proof.
  intros Hpk Hc Hall Hother Hrep.
  apply handle_message_amounts_replied in Hrep
    as (sh' & biz' & Hc' & Hne & Hrun & ->).
  rewrite Hc in Hc'. injection Hc' as <- <-.
  destruct (update_all_counts chat_id sh2 biz2 amounts db db' Hall Hpk Hrun)
    as (_ & Hlen & Hcount).
  destruct (get_shift_and_business_date_nonempty _ _ _ Hc) as [Hsh Hbiz].
  split; [done|].
  intros cur. destruct (decide (cur = "")) as [->|Hcur].
  - by rewrite !(proj1 (reported_empty_currency _ _ _ _ _)).
  - pose proof (Hcount now' chat_id biz sh cur Hbiz Hsh Hcur) as H.
    rewrite decide_False in H by congruence. exact H.
Qed.

Lemma reply_across_shift_boundary_witness :
  reported
    (get_totals (at_clock 2024 1 1 18 1 0 1) 1 (Some "2024-01-01")
       (Some "shift1")
       (handle_message_amounts (at_clock 2024 1 1 17 59 59 999999)
          [(at_clock 2024 1 1 18 1 0 0, (500, "USD"))]
          (at_clock 2024 1 1 18 1 0 1) 1 db_two_records).1) "USD" =
  reported (get_totals (at_clock 2024 1 1 18 1 0 1) 1
              (Some "2024-01-01") (Some "shift1") db_two_records) "USD".
Proof.
  assert (Hpk : primary_key_ok (totals db_two_records))
    by (unfold primary_key_ok; apply (bool_decide_unpack _); vm_compute; exact I).
  assert (Hc : get_shift_and_business_date (at_clock 2024 1 1 17 59 59 999999) =
               Some ("shift1", "2024-01-01")) by reflexivity.
  assert (Hall : Forall (λ a : datetime * (Z * string),
                   get_shift_and_business_date a.1 =
                     Some ("shift2", "2024-01-01"))
                   [(at_clock 2024 1 1 18 1 0 0, (500, "USD"))])
    by repeat constructor.
  assert (Hother : ("shift2", "2024-01-01") ≠ ("shift1", "2024-01-01"))
    by discriminate.
  exact (proj2 (reply_across_shift_boundary (at_clock 2024 1 1 17 59 59 999999)
                  (at_clock 2024 1 1 18 1 0 1)
                  [(at_clock 2024 1 1 18 1 0 0, (500, "USD"))] 1 db_two_records
                  _ _ "shift1" "2024-01-01" "shift2" "2024-01-01"
                  Hpk Hc Hall Hother eq_refl) "USD").
Defined.

Lemma apply_op_classified o db :
  match o with
  | OpUpdate c => whole_second (rc_now c)
  | _ => True
  end →
  Forall classified_as_stored (history db) →
  Forall classified_as_stored (history (apply_op db o)).
Proof.
  intros Ho Hdb. destruct o as [c|a s d|a d|]; simpl; [| |done..].
  - destruct (update_total _ _ _ _ db) as [db'|] eqn:Hup; simpl; [|done].
    apply update_total_history in Hup as (sh & biz & Hcl & ->).
    apply Forall_app. split; [done|]. apply Forall_singleton.
    intros now Hnow Htext. simpl in *.
    by rewrite (strftime_datetime_inj now (rc_now c) Hnow Ho Htext).
  - by destruct (move_to_old_fields a s d db) as (_ & _ & ->).
Qed.

(** X15. When every [update_total] of a sequence of writers reads the clock
    on a whole second of a calendar date, every ledger entry carries the
    shift and the business date that the classifier answers for the moment
    its stored timestamp denotes. *)
Theorem ledger_classified_as_stored (ops : list op) :
  Forall (λ o, match o with
               | OpUpdate c => whole_second (rc_now c)
               | _ => True
               end) ops →
  Forall classified_as_stored (history (run_ops ops empty_db)).
Proof.
  intros Hops.
  assert (H : ∀ db, Forall classified_as_stored (history db) →
                    Forall classified_as_stored (history (run_ops ops db))).
  { unfold run_ops. induction Hops as [|o ops Ho _ IH]; intros db Hdb; [done|].
    simpl. by apply IH, apply_op_classified. }
  by apply H.
Qed.

Lemma ledger_classified_as_stored_witness :
  Forall classified_as_stored (history (run_ops ops_example empty_db)).
Proof.
  apply (ledger_classified_as_stored ops_example).
  unfold ops_example, whole_second, valid_date, valid_time.
  repeat constructor; cbn; lia.
Defined.

(** A record attributed to the business date [biz] touches no totals row of
    another date. *)
Lemma update_total_other_date now_dt chat_id currency amount db db' sh biz
    chat_id' date_str' :
  update_total now_dt chat_id currency amount db = Some db' →
  get_shift_and_business_date now_dt = Some (sh, biz) →
  date_str' ≠ biz →
  filter (at_date chat_id' date_str') (totals db') =
    filter (at_date chat_id' date_str') (totals db) ∧
  ∀ shift',
    filter (at_shift chat_id' date_str' shift') (totals db') =
      filter (at_shift chat_id' date_str' shift') (totals db).
Proof.
  intros (sh' & biz' & Hc' & _ & _ & Ht)%update_total_inv Hc Hne.
  rewrite Hc in Hc'. injection Hc' as <- <-.
  destruct (head _) as [r|]; rewrite Ht.
  - split; [|intros shift'];
      (apply filter_sql_update_other; intros r' Hr';
       unfold row_key in Hr'; unfold at_date, at_shift; simpl;
       split; intros ?; destruct_and?; congruence).
  - split; [|intros shift']; rewrite filter_app;
      (rewrite filter_cons_False, filter_nil, app_nil_r; [done|]);
      unfold at_date, at_shift; simpl; intros ?; destruct_and?; congruence.
Qed.

(** A totals query depends on the rows of its account and date only. *)
Lemma get_totals_rows_of_date now chat_id date_str shift db db' :
  filter (at_date chat_id (py_or date_str (get_today_str now))) (totals db') =
    filter (at_date chat_id (py_or date_str (get_today_str now))) (totals db) →
  (∀ sh, filter (at_shift chat_id (py_or date_str (get_today_str now)) sh)
           (totals db') =
         filter (at_shift chat_id (py_or date_str (get_today_str now)) sh)
           (totals db)) →
  get_totals now chat_id date_str shift db' =
    get_totals now chat_id date_str shift db.
Proof.
  intros Hd Hs. unfold get_totals. cbv zeta.
  destruct shift as [sh|]; [case_decide|]; by rewrite ?Hd, ?Hs.
Qed.

(** C10. Between midnight and 06:00 a query without date reads the rows of
    the calendar date of the clock: it answers what the query with that
    date answers.  The classifier attributes the records of that moment to
    the previous calendar day, never to the date the query reads: a record
    made then is counted under the previous day, in shift 3, and changes no
    answer of a totals query without date. *)
Theorem omitted_date_is_calendar_date (now now_u : datetime) (chat_id : Z)
    (currency : string) (amount : Z) (db db' : database) :
  valid_date (dt_date now) →
  time_le (mk_time 0 0 0 0) (dt_time now) →
  time_lt (dt_time now) (mk_time 6 0 0 0) →
  dt_date now_u = dt_date now →
  time_lt (dt_time now_u) (mk_time 6 0 0 0) →
  primary_key_ok (totals db) → currency ≠ "" →
  update_total now_u chat_id currency amount db = Some db' →
  (get_totals now chat_id None None db =
     fill_data
       (sql_group_currency
          (filter (at_date chat_id (strftime_date (dt_date now))) (totals db))) ∧
   (∀ sh, sh ≠ "" →
      get_totals now chat_id None (Some sh) db =
        fill_data
          (currency_columns <$>
             filter (at_shift chat_id (strftime_date (dt_date now)) sh)
               (totals db))) ∧
   get_old_totals now chat_id None db =
     fill_data
       (sql_group_currency
          (filter (at_date chat_id (strftime_date (dt_date now)))
             (old_totals db)))) ∧
  (∀ shift,
     get_totals now chat_id None shift db =
       get_totals now chat_id (Some (strftime_date (dt_date now))) shift db) ∧
  get_old_totals now chat_id None db =
    get_old_totals now chat_id (Some (strftime_date (dt_date now))) db ∧
  get_shift_and_business_date now =
    (λ biz, ("shift3", strftime_date biz)) <$> date_minus_one_day (dt_date now) ∧
  (∀ sh, get_shift_and_business_date now ≠ Some (sh, get_today_str now)) ∧
  (dt_date now = date_min ∨
   ∃ biz, get_shift_and_business_date now = Some ("shift3", strftime_date biz) ∧
          toordinal biz = toordinal (dt_date now) - 1) ∧
  ∃ biz,
    get_shift_and_business_date now_u = Some ("shift3", biz) ∧
    biz ≠ strftime_date (dt_date now) ∧
    (∀ shift,
       get_totals now chat_id None shift db' =
         get_totals now chat_id None shift db) ∧
    s_invoices
      (reported (get_totals now chat_id (Some biz) (Some "shift3") db')
         currency) =
    s_invoices
      (reported (get_totals now chat_id (Some biz) (Some "shift3") db)
         currency) + 1.
Proof.
  intros Hv _ Ht Hdate Htu Hpk Hcur Hup.
  assert (Hcl : ∀ n, dt_date n = dt_date now →
            time_lt (dt_time n) (mk_time 6 0 0 0) →
            get_shift_and_business_date n =
              (λ biz, ("shift3", strftime_date biz)) <$>
              date_minus_one_day (dt_date now)).
  { intros n Hn Hlt. unfold get_shift_and_business_date.
    rewrite (taken_branch_after_midnight _ Hlt), Hn.
    destruct (date_minus_one_day (dt_date now)); reflexivity. }
  pose proof (Hcl now eq_refl Ht) as Hc.
  destruct (py_or_default (strftime_date (dt_date now))) as [_ E].
  assert (Hother : ∀ sh d, get_shift_and_business_date now = Some (sh, d) →
            d ≠ strftime_date (dt_date now)).
  { intros sh d. rewrite Hc.
    destruct (date_minus_one_day (dt_date now)) as [biz|] eqn:Hb; simpl;
      [|discriminate].
    intros Heq Es.
    assert (Es' : strftime_date biz = strftime_date (dt_date now))
      by congruence.
    destruct (date_minus_one_day_valid _ _ Hv Hb) as [Hvb Hne].
    apply Hne. apply strftime_date_inj; [exact Hvb|exact Hv|exact Es']. }
  split; [|split; [|split; [|split; [|split; [|split]]]]].
  - split; [reflexivity|]. split; [|reflexivity].
    intros sh Hsh. unfold get_totals. cbv zeta.
    by rewrite (decide_False (P := sh = "")).
  - intros shift. unfold get_totals, get_today_str. cbv zeta. by rewrite E.
  - unfold get_old_totals, get_today_str. cbv zeta. by rewrite E.
  - exact Hc.
  - intros sh Heq. by apply (Hother sh (get_today_str now)).
  - destruct (decide (dt_date now = date_min)) as [|Hne]; [by left|right].
    destruct (date_minus_one_day_Some _ Hv Hne) as [biz Hb].
    exists biz. rewrite Hc, Hb. split; [reflexivity|].
    by apply date_minus_one_day_ordinal.
  - pose proof (Hcl now_u Hdate Htu) as Hcu.
    destruct (update_total_inv _ _ _ _ _ _ Hup) as (sh & biz & Hsb & _).
    assert (Hsh : sh = "shift3").
    { rewrite Hcu in Hsb.
      destruct (date_minus_one_day (dt_date now)); simpl in Hsb; congruence. }
    subst sh.
    assert (Hne : biz ≠ strftime_date (dt_date now)).
    { apply (Hother "shift3"). by rewrite Hc, <- Hcu. }
    destruct (get_shift_and_business_date_nonempty _ _ _ Hsb) as [Hs3 Hbiz].
    exists biz. split; [exact Hsb|]. split; [exact Hne|]. split.
    + intros shift.
      destruct (update_total_other_date _ _ _ _ _ _ _ _ chat_id
                  (strftime_date (dt_date now)) Hup Hsb) as [Hd Hs];
        [congruence|].
      by apply get_totals_rows_of_date.
    + pose proof (update_total_count_shift now_u now chat_id currency amount
                    db db' "shift3" biz chat_id biz "shift3" currency
                    Hpk Hup Hsb Hbiz Hs3 Hcur) as H.
      by rewrite decide_True in H.
Qed.

Lemma omitted_date_is_calendar_date_witness :
  get_shift_and_business_date (at_clock 2024 1 2 1 0 0 0) =
    Some ("shift3", "2024-01-01") ∧
  reported (get_totals (at_clock 2024 1 2 1 0 0 0) 1 None None db_two_records)
    "USD" = zero_summary ∧
  reported (get_totals (at_clock 2024 1 2 1 0 0 0) 1 (Some "2024-01-01") None
              db_two_records) "USD" = mk_summary 800 2 ∧
  get_totals (at_clock 2024 1 2 1 0 0 0) 1 None None
    (default db_two_records
       (update_total (at_clock 2024 1 2 1 0 1 0) 1 "USD" 300 db_two_records)) =
    get_totals (at_clock 2024 1 2 1 0 0 0) 1 None None db_two_records.
Proof.
  assert (Hv : valid_date (dt_date (at_clock 2024 1 2 1 0 0 0)))
    by (unfold valid_date; cbn; lia).
  assert (H0 : time_le (mk_time 0 0 0 0) (dt_time (at_clock 2024 1 2 1 0 0 0)))
    by (unfold time_le; simpl; lia).
  assert (H6 : time_lt (dt_time (at_clock 2024 1 2 1 0 0 0)) (mk_time 6 0 0 0))
    by (unfold time_lt; simpl; lia).
  assert (H6u : time_lt (dt_time (at_clock 2024 1 2 1 0 1 0)) (mk_time 6 0 0 0))
    by (unfold time_lt; simpl; lia).
  assert (Hpk : primary_key_ok (totals db_two_records))
    by (unfold primary_key_ok; apply (bool_decide_unpack _); vm_compute; exact I).
  assert (Hcur : "USD" ≠ "") by discriminate.
  destruct (omitted_date_is_calendar_date
              (at_clock 2024 1 2 1 0 0 0) (at_clock 2024 1 2 1 0 1 0) 1
              "USD" 300 db_two_records
              (default db_two_records
                 (update_total (at_clock 2024 1 2 1 0 1 0) 1 "USD" 300
                    db_two_records))
              Hv H0 H6 eq_refl H6u Hpk Hcur eq_refl)
    as ((Hall & _) & _ & _ & Hc & _ & _ & biz & _ & _ & Hsame & _).
  split; [exact Hc|]. split; [by rewrite Hall|].
  split; [reflexivity|]. apply Hsame.
Defined.



(** ** Records on the IEEE model: keys and counts *)


Section real_sql_update.
Context (sel : Real.totals_row → Prop) `{!∀ r, Decision (sel r)}.
Context (set : Real.totals_row → Real.totals_row).



End real_sql_update.
















(** C8, as stated, fails.  A record of inf in shift 1, the shift closed, a record
    of -inf in shift 2: before the close of shift 2 its total is -inf and
    the archive of the date holds inf; after the close the archive query
    sums inf and -inf and reports 0.0. *)
Lemma closed_total_lost_in_archive_sum :
  Real.get_totals (at_clock 2024 1 1 19 30 0 0) 1 (Some "2024-01-01")
    (Some "shift2") Real.db_inf_closed !! "USD" =
    Some (Real.mk_summary neg_infinity 1) ∧
  Real.get_old_totals (at_clock 2024 1 1 19 30 0 0) 1 (Some "2024-01-01")
    Real.db_inf_closed !! "USD" = Some (Real.mk_summary infinity 1) ∧
  Real.get_totals (at_clock 2024 1 1 19 30 0 0) 1 (Some "2024-01-01")
    (Some "shift2")
    (Real.move_to_old 1 "shift2" "2024-01-01" Real.db_inf_closed) !! "USD" =
    Some (Real.mk_summary 0%float 0) ∧
  Real.get_old_totals (at_clock 2024 1 1 19 30 0 0) 1 (Some "2024-01-01")
    (Real.move_to_old 1 "shift2" "2024-01-01" Real.db_inf_closed) !! "USD" =
    Some (Real.mk_summary 0%float 2).
Proof. split; [|split; [|split]]; vm_compute; reflexivity. Qed.
